(** * Authentication and session orchestration of Structura

    A shallow embedding of the auth subsystem of the Next.js application:
    - [src/hooks/useAuth.ts]: the session store hook ([UseAuth]);
    - [src/components/auth/AuthForm/index.tsx] and
      [config/authFormDefaults.ts]: the adaptive auth form ([AuthForm]);
    - [src/components/auth/ConfirmEmailView.tsx]: the client-side
      confirmation view ([ConfirmEmailView]);
    - the email verification route handler ([ConfirmRoute]).

    JavaScript objects live in a heap indexed by locations, so that
    [===] on objects is equality of locations.  React state is a record;
    every synchronous continuation between two [await]s is one atomic
    step (React 18 batches the state setters called inside it). *)

From Stdlib Require Import ZArith Ascii String.
From stdpp Require Import gmap strings list fin_maps.

Local Open Scope string_scope.

(** ** JavaScript values and the object heap *)

Module JS.

Definition loc := positive.

Inductive jsval :=
| VUndefined
| VNull
| VBool (b : bool)
| VNum (n : Z)
| VStr (s : string)
| VRef (l : loc).

#[global] Instance jsval_eq_dec : EqDecision jsval.
Proof. solve_decision. Defined.

(** An object: whether [o instanceof Error] holds, and its properties. *)
Record jsobj := JSObj {
  instanceofError : bool;
  props : gmap string jsval
}.

Abbreviation heap := (gmap loc jsobj).

(** Truthiness, as used by [if (x)], [x || y] and [!x]. *)
Definition truthy (v : jsval) : bool :=
  match v with
  | VUndefined | VNull => false
  | VBool b => b
  | VNum n => negb (n =? 0)%Z
  | VStr s => negb (String.eqb s "")
  | VRef _ => true
  end.

(** [new ...] / an object literal: a fresh location. *)
Definition alloc (h : heap) (o : jsobj) : loc * heap :=
  let l := fresh (dom h) in (l, <[l := o]> h).

(** [v.k], and [v?.k] (both give [undefined] on a value without that
    property; the model never reads a property of [null]/[undefined]
    without [?.]). *)
Definition getProp (h : heap) (v : jsval) (k : string) : jsval :=
  match v with
  | VRef l =>
      match h !! l with
      | Some o => default VUndefined (props o !! k)
      | None => VUndefined
      end
  | _ => VUndefined
  end.

(** ['k' in v] for an object [v]. *)
Definition hasProp (h : heap) (v : jsval) (k : string) : bool :=
  match v with
  | VRef l =>
      match h !! l with
      | Some o => bool_decide (is_Some (props o !! k))
      | None => false
      end
  | _ => false
  end.

(** [v instanceof Error]. *)
Definition isError (h : heap) (v : jsval) : bool :=
  match v with
  | VRef l =>
      match h !! l with
      | Some o => instanceofError o
      | None => false
      end
  | _ => false
  end.

(** An object literal [{ k1: v1, ... }]; later keys override earlier ones,
    which is also what the spread [...ctx] does. *)
Definition literal (kvs : list (string * jsval)) : gmap string jsval :=
  foldl (fun m kv => <[kv.1 := kv.2]> m) ∅ kvs.

(** [new Error(message)]. *)
Definition newError (h : heap) (message : string) : loc * heap :=
  alloc h (JSObj true (literal [("message", VStr message)])).

(** *** Strings *)

(** [s.includes(sub)]. *)
Fixpoint includes (s sub : string) : bool :=
  String.prefix sub s ||
  match s with
  | EmptyString => false
  | String _ s' => includes s' sub
  end.

Definition lowerAscii (c : ascii) : ascii :=
  let n := nat_of_ascii c in
  if (65 <=? n)%nat && (n <=? 90)%nat then ascii_of_nat (n + 32) else c.

(** [s.toLowerCase()] on the ASCII letters.  The only non-ASCII characters
    whose lower case is an ASCII letter are the Kelvin sign (k) and the
    dotted capital I (i followed by a combining dot); no string that the
    code compares a lower-cased value with contains a [k], and the
    combining dot breaks the phrases it looks for. *)
Fixpoint toLowerCase (s : string) : string :=
  match s with
  | EmptyString => EmptyString
  | String c s' => String (lowerAscii c) (toLowerCase s')
  end.

End JS.

Import JS.

(** ** The error library [@/lib/error] *)

Module ErrorLib.

(** Modelled from the spec: [isAppError] of [@/lib/error], which is not
    among the sources.  The input "already carries a recognizable
    structured shape ([code], [context], [isOperational])". *)
Definition isAppError (h : heap) (v : jsval) : bool :=
  hasProp h v "code" && hasProp h v "context" && hasProp h v "isOperational".

(** The message of a raw error, for display: the string itself, or the
    [message] of the object; a value without one gets a generic text. *)
Definition messageOf (h : heap) (v : jsval) : string :=
  match v with
  | VStr s => s
  | _ => match getProp h v "message" with
         | VStr s => s
         | _ => "An unexpected error occurred"
         end
  end.

(** Modelled from the spec: the known substrings of the classifier, which
    is not among the sources.  The spec names one phrase of each kind: a
    failure message containing "Invalid email" is a credential failure,
    and a backend report of "already registered" is a duplicate
    registration. *)
Definition credentialFailure (m : string) : bool := includes m "Invalid email".

Definition duplicateRegistration (m : string) : bool :=
  includes m "already registered".

(** Modelled from the spec: the coarse code that the classifier assigns
    from the message: "credential failures -> AUTH/INVALID_CREDENTIALS;
    duplicate-registration phrases -> AUTH/EMAIL_ALREADY_IN_USE; anything
    unmatched -> AUTH/UNKNOWN". *)
Definition codeOf (m : string) : string :=
  if credentialFailure m then "AUTH/INVALID_CREDENTIALS"
  else if duplicateRegistration m then "AUTH/EMAIL_ALREADY_IN_USE"
  else "AUTH/UNKNOWN".

(** Modelled from the spec: the context of the new [AppError]: the one
    given by the caller, to which a duplicate registration "attaches
    [context.shouldSwitchToLogin = true]". *)
Definition contextOf (m : string) (ctx : list (string * jsval))
    : list (string * jsval) :=
  if String.eqb (codeOf m) "AUTH/EMAIL_ALREADY_IN_USE"
  then ctx ++ [("shouldSwitchToLogin", VBool true)] else ctx.

(** Modelled from the spec: the [AppError] built for a raw error [err] and
    the caller's context, stored at [lc]: see [handleClientError].  The
    spec leaves the status of such an error open; 500 stands for it, and
    nothing below reads it. *)
Definition appErrorObj (h : heap) (err : jsval) (ctx : list (string * jsval))
    (lc : loc) : jsobj :=
  JSObj true (literal
    [("code", VStr (codeOf (messageOf h err)));
     ("message", VStr (messageOf h err));
     ("context", VRef lc);
     ("statusCode", VNum 500);
     ("isOperational",
        VBool (negb (truthy (default VUndefined (literal ctx !! "unexpected")))))]).

(** Modelled from the spec: [handleClientError] of [@/lib/error], which is
    not among the sources: the mapping [(unknown, context?) -> AppError].
    A value that is already an [AppError] is passed through unchanged.
    Otherwise a new [AppError] is built: its code is assigned from the
    known substrings of the message, whatever code the caller names in
    its context; the original message is preserved; the context given by
    the caller is kept as [context]; the error is stamped operational
    unless the caller flags a defensive catch with [unexpected]. *)
Definition handleClientError (h : heap) (err : jsval)
    (ctx : list (string * jsval)) : jsval * heap :=
  if isAppError h err then (err, h) else
  let '(lc, h1) :=
    alloc h (JSObj false (literal (contextOf (messageOf h err) ctx))) in
  let '(l, h2) := alloc h1 (appErrorObj h err ctx lc) in
  (VRef l, h2).

End ErrorLib.

(** ** The session store: [src/hooks/useAuth.ts] *)

Module UseAuth.

(** [AuthUser] and [Session] of the identity provider's client library.
    Its type declares [user] as a mandatory field of [Session]; the
    optional chaining in [session?.user] guards a [null] session. *)
Record AuthUser := {
  id : string;
  email : string;
  email_confirmed : bool;
  provider : string
}.

Record Session := {
  access_token : string;
  refresh_token : string;
  expires_at : Z;
  user : AuthUser
}.

(** How an awaited promise settles. *)
Inductive outcome (A : Type) :=
| Resolved (a : A)
| Rejected (e : jsval).
Arguments Resolved {A} a.
Arguments Rejected {A} e.

(** Where the one-time [checkSession] is suspended. *)
Inductive CheckPhase :=
| Idle
| AwaitGetSession
| AwaitGetUser (s : Session)
| AwaitSignOut (s : Session)
| Settled.

(** The four [useState] cells, the [isMounted] flag of the effect, the
    progress of [checkSession], and the two outward effects of the hook:
    assignments to [document.cookie] and the sign-out it forces. *)
Record Hook := {
  authUser : option AuthUser;
  session : option Session;
  isLoading : bool;
  error : option jsval;
  isMounted : bool;
  pending : CheckPhase;
  cookie : list string;
  forcedSignOut : list string
}.

(** [useState] initial values; the effect has not run yet. *)
Definition initial : Hook :=
  {| authUser := None; session := None; isLoading := true; error := None;
     isMounted := false; pending := Idle; cookie := []; forcedSignOut := [] |}.

Definition setAuthUser (v : option AuthUser) (k : Hook) : Hook :=
  {| authUser := v; session := session k; isLoading := isLoading k;
     error := error k; isMounted := isMounted k; pending := pending k;
     cookie := cookie k; forcedSignOut := forcedSignOut k |}.

Definition setSession (v : option Session) (k : Hook) : Hook :=
  {| authUser := authUser k; session := v; isLoading := isLoading k;
     error := error k; isMounted := isMounted k; pending := pending k;
     cookie := cookie k; forcedSignOut := forcedSignOut k |}.

Definition setIsLoading (v : bool) (k : Hook) : Hook :=
  {| authUser := authUser k; session := session k; isLoading := v;
     error := error k; isMounted := isMounted k; pending := pending k;
     cookie := cookie k; forcedSignOut := forcedSignOut k |}.

Definition setError (v : option jsval) (k : Hook) : Hook :=
  {| authUser := authUser k; session := session k; isLoading := isLoading k;
     error := v; isMounted := isMounted k; pending := pending k;
     cookie := cookie k; forcedSignOut := forcedSignOut k |}.

Definition setMounted (v : bool) (k : Hook) : Hook :=
  {| authUser := authUser k; session := session k; isLoading := isLoading k;
     error := error k; isMounted := v; pending := pending k;
     cookie := cookie k; forcedSignOut := forcedSignOut k |}.

Definition setPending (v : CheckPhase) (k : Hook) : Hook :=
  {| authUser := authUser k; session := session k; isLoading := isLoading k;
     error := error k; isMounted := isMounted k; pending := v;
     cookie := cookie k; forcedSignOut := forcedSignOut k |}.

Definition writeCookie (c : string) (k : Hook) : Hook :=
  {| authUser := authUser k; session := session k; isLoading := isLoading k;
     error := error k; isMounted := isMounted k; pending := pending k;
     cookie := cookie k ++ [c]; forcedSignOut := forcedSignOut k |}.

Definition callSignOut (reason : string) (k : Hook) : Hook :=
  {| authUser := authUser k; session := session k; isLoading := isLoading k;
     error := error k; isMounted := isMounted k; pending := pending k;
     cookie := cookie k; forcedSignOut := forcedSignOut k ++ [reason] |}.

(** [session?.user ?? null]. *)
Definition userOf (s : option Session) : option AuthUser := user <$> s.

(** The test of the [catch] block of [checkSession]:
    [error instanceof Error && (message.includes('refresh_token') ||
     message.includes('Refresh Token') ||
     message.includes('Invalid Refresh Token'))].
    The message of an [Error] is a string. *)
Definition isRefreshTokenError (h : heap) (e : jsval) : bool :=
  isError h e &&
  match getProp h e "message" with
  | VStr m => includes m "refresh_token" || includes m "Refresh Token"
              || includes m "Invalid Refresh Token"
  | _ => false
  end.

(** The session and the user of a state come from the same event. *)
Definition coupled (k : Hook) : Prop := authUser k = userOf (session k).

Section Hook.

(** [isAppError] and [handleClientError as handleError] of [@/lib/error]. *)
Variable isAppError : heap -> jsval -> bool.
Variable handleError : heap -> jsval -> list (string * jsval) -> jsval * heap.

(** The [finally] block of [checkSession]. *)
Definition checkSession_finally (k : Hook) : Hook :=
  setPending Settled (if isMounted k then setIsLoading false k else k).

(** The [catch] block of [checkSession], followed by [finally]. *)
Definition checkSession_catch (h : heap) (k : Hook) (e : jsval) : heap * Hook :=
  if isRefreshTokenError h e then
    (h, checkSession_finally
          (if isMounted k
           then setError None (setAuthUser None (setSession None k))
           else k))
  else
    let '(appError, h') :=
      handleError h e [("operation", VStr "checkSession");
                       ("hook", VStr "useAuth");
                       ("authErrorType", VUndefined)] in
    (h', checkSession_finally
           (if isMounted k then setError (Some appError) k else k)).

(** Lines 119-132, followed by [finally]: the write of a fetched session. *)
Definition checkSession_commit (k : Hook) (s : option Session) : Hook :=
  checkSession_finally
    (match s with
     | Some _ => if isMounted k then setAuthUser (userOf s) (setSession s k) else k
     | None => k
     end).

(** [checkSession] up to its first [await]. *)
Definition checkSession_start (k : Hook) : Hook :=
  setPending AwaitGetSession (setIsLoading true k).

(** [await authService.getSession()] settles. *)
Definition checkSession_gotSession (h : heap) (k : Hook)
    (r : outcome (option Session)) : heap * Hook :=
  match r with
  | Rejected e => checkSession_catch h k e
  | Resolved s =>
      if negb (isMounted k) then (h, checkSession_finally k)
      else match s with
           | Some s' => (h, setPending (AwaitGetUser s') k)
           | None => (h, checkSession_commit k None)
           end
  end.

(** [await authService.getUser()] settles. *)
Definition checkSession_gotUser (h : heap) (k : Hook) (s : Session)
    (r : outcome (option AuthUser)) : heap * Hook :=
  match r with
  | Rejected e => checkSession_catch h k e
  | Resolved (Some _) => (h, checkSession_commit k (Some s))
  | Resolved None =>
      (h, setPending (AwaitSignOut s) (callSignOut "USER_NOT_FOUND" k))
  end.

(** [await authService.signOut(SignOutReasonEnum.USER_NOT_FOUND)] settles. *)
Definition checkSession_signedOut (h : heap) (k : Hook)
    (r : outcome unit) : heap * Hook :=
  match r with
  | Rejected e => checkSession_catch h k e
  | Resolved _ =>
      let k1 := if isMounted k then setAuthUser None (setSession None k) else k in
      let k2 := writeCookie
        "signout-reason=user-not-found; Max-Age=5; Path=/; SameSite=Strict" k1 in
      (h, checkSession_finally k2)
  end.

(** The callback given to [authService.onAuthStateChange]. *)
Definition onAuthStateChange (k : Hook) (event : string)
    (s : option Session) : Hook :=
  if isMounted k
  then setIsLoading false (setAuthUser (userOf s) (setSession s k))
  else k.

(** The body of the effect: set the flag, subscribe, start [checkSession]. *)
Definition mount (k : Hook) : Hook :=
  checkSession_start (setMounted true k).

(** The clean-up of the effect. *)
Definition unmount (k : Hook) : Hook := setMounted false k.

(** *** The auth operations.  Each runs up to its [await] ([op_start]) and
    resumes when the call to [authService] settles; the value it settles
    with is the [error] of the response.  The functions return the
    [error] of the object they resolve with. *)

Definition op_start (k : Hook) : Hook := setError None (setIsLoading true k).

Definition signIn (h : heap) (k : Hook) (email password : string)
    (r : outcome jsval) : option jsval * heap * Hook :=
  match r with
  | Resolved err =>
      if truthy err then
        let '(appError, h') :=
          if isAppError h err then (err, h)
          else handleError h err [("operation", VStr "signIn");
                                  ("email", VStr email);
                                  ("hook", VStr "useAuth")] in
        (Some appError, h', setIsLoading false k)
      else (None, h, setIsLoading false k)
  | Rejected e =>
      let '(appError, h') :=
        handleError h e [("operation", VStr "signIn"); ("email", VStr email);
                         ("unexpected", VBool true); ("hook", VStr "useAuth")] in
      (Some appError, h', setIsLoading false k)
  end.

Definition signInWithProvider (h : heap) (k : Hook) (provider : string)
    (r : outcome jsval) : option jsval * heap * Hook :=
  match r with
  | Resolved err =>
      if truthy err then
        let '(appError, h') :=
          handleError h err [("operation", VStr "signInWithProvider");
                             ("provider", VStr provider);
                             ("hook", VStr "useAuth")] in
        (Some appError, h', setIsLoading false k)
      else (None, h, setIsLoading false k)
  | Rejected e =>
      let '(appError, h') :=
        handleError h e [("operation", VStr "signInWithProvider");
                         ("provider", VStr provider);
                         ("unexpected", VBool true); ("hook", VStr "useAuth")] in
      (Some appError, h', setIsLoading false k)
  end.

Definition signUpWithEmail (h : heap) (k : Hook) (email password : string)
    (options : option string) (r : outcome jsval) : option jsval * heap * Hook :=
  match r with
  | Resolved err =>
      if truthy err then
        let '(appError, h') :=
          handleError h err [("operation", VStr "signUpWithEmail");
                             ("email", VStr email);
                             ("hook", VStr "useAuth")] in
        (Some appError, h', setIsLoading false k)
      else (None, h, setIsLoading false k)
  | Rejected e =>
      let '(appError, h') :=
        handleError h e [("operation", VStr "signUpWithEmail");
                         ("email", VStr email);
                         ("unexpected", VBool true); ("hook", VStr "useAuth")] in
      (Some appError, h', setIsLoading false k)
  end.

Definition resetPassword (h : heap) (k : Hook) (email : string)
    (r : outcome jsval) : option jsval * heap * Hook :=
  match r with
  | Resolved err =>
      if truthy err then
        let '(appError, h') :=
          handleError h err [("operation", VStr "resetPassword");
                             ("email", VStr email);
                             ("hook", VStr "useAuth")] in
        (Some appError, h', setIsLoading false k)
      else (None, h, setIsLoading false k)
  | Rejected e =>
      let '(appError, h') :=
        handleError h e [("operation", VStr "resetPassword");
                         ("email", VStr email);
                         ("unexpected", VBool true); ("hook", VStr "useAuth")] in
      (Some appError, h', setIsLoading false k)
  end.

Definition updatePassword (h : heap) (k : Hook) (newPassword : string)
    (r : outcome jsval) : option jsval * heap * Hook :=
  match r with
  | Resolved err =>
      if truthy err then
        let '(appError, h') :=
          handleError h err [("operation", VStr "updatePassword");
                             ("hook", VStr "useAuth")] in
        (Some appError, h', setIsLoading false k)
      else (None, h, setIsLoading false k)
  | Rejected e =>
      let '(appError, h') :=
        handleError h e [("operation", VStr "updatePassword");
                         ("unexpected", VBool true); ("hook", VStr "useAuth")] in
      (Some appError, h', setIsLoading false k)
  end.

Definition signOut (h : heap) (k : Hook) (reason : option string)
    (r : outcome jsval) : option jsval * heap * Hook :=
  match r with
  | Resolved err =>
      if truthy err then
        let '(appError, h') :=
          handleError h err [("operation", VStr "signOut");
                             ("hook", VStr "useAuth")] in
        (Some appError, h', setIsLoading false k)
      else (None, h, setIsLoading false k)
  | Rejected e =>
      let '(appError, h') :=
        handleError h e [("operation", VStr "signOut");
                         ("unexpected", VBool true); ("hook", VStr "useAuth")] in
      (Some appError, h', setIsLoading false k)
  end.

(** [refreshSession], resumed when [authService.getSession()] settles. *)
Definition refreshSession (h : heap) (k : Hook)
    (r : outcome (option Session)) : heap * Hook :=
  match r with
  | Resolved s => (h, setIsLoading false (setAuthUser (userOf s) (setSession s k)))
  | Rejected e =>
      let '(appError, h') :=
        handleError h e [("operation", VStr "refreshSession");
                         ("unexpected", VBool true); ("hook", VStr "useAuth")] in
      (h', setIsLoading false (setError (Some appError) k))
  end.

Definition clearError (k : Hook) : Hook := setError None k.

(** [getErrorCode]: [error?.code ?? null]. *)
Definition getErrorCode (h : heap) (k : Hook) : jsval :=
  match error k with
  | Some e => match getProp h e "code" with
              | VUndefined => VNull
              | c => c
              end
  | None => VNull
  end.

(** *** The hook as a transition system *)

Inductive AuthOp :=
| SignIn (email password : string)
| SignInWithProvider (provider : string)
| SignUpWithEmail (email password : string) (options : option string)
| ResetPassword (email : string)
| UpdatePassword (newPassword : string)
| SignOut (reason : option string).

(** The operation resumed after its [await]. *)
Definition settle (op : AuthOp) (h : heap) (k : Hook) (r : outcome jsval)
    : option jsval * heap * Hook :=
  match op with
  | SignIn e p => signIn h k e p r
  | SignInWithProvider p => signInWithProvider h k p r
  | SignUpWithEmail e p o => signUpWithEmail h k e p o r
  | ResetPassword e => resetPassword h k e r
  | UpdatePassword p => updatePassword h k p r
  | SignOut reason => signOut h k reason r
  end.

(** One whole call of an operation, nothing else happening in between. *)
Definition run (op : AuthOp) (h : heap) (k : Hook) (r : outcome jsval)
    : option jsval * heap * Hook :=
  settle op h (op_start k) r.

(** The call to [authService] failed: it resolved with an [error], or it
    threw. *)
Definition failed (r : outcome jsval) : bool :=
  match r with
  | Resolved err => truthy err
  | Rejected _ => true
  end.

Inductive Event :=
| EMount
| EUnmount
| EGetSession (r : outcome (option Session))
| EGetUser (r : outcome (option AuthUser))
| ESignedOut (r : outcome unit)
| EAuthStateChange (event : string) (s : option Session)
| EOpStart
| EOpSettle (op : AuthOp) (r : outcome jsval)
| ERefreshSession (r : outcome (option Session))
| EClearError.

Definition step (st : heap * Hook) (ev : Event) : heap * Hook :=
  let '(h, k) := st in
  match ev with
  | EMount => match pending k with Idle => (h, mount k) | _ => st end
  | EUnmount => (h, unmount k)
  | EGetSession r =>
      match pending k with
      | AwaitGetSession => checkSession_gotSession h k r
      | _ => st
      end
  | EGetUser r =>
      match pending k with
      | AwaitGetUser s => checkSession_gotUser h k s r
      | _ => st
      end
  | ESignedOut r =>
      match pending k with
      | AwaitSignOut _ => checkSession_signedOut h k r
      | _ => st
      end
  | EAuthStateChange event s => (h, onAuthStateChange k event s)
  | EOpStart => (h, op_start k)
  | EOpSettle op r => let '(_, h', k') := settle op h k r in (h', k')
  | ERefreshSession r => refreshSession h (op_start k) r
  | EClearError => (h, clearError k)
  end.

Inductive reachable : heap * Hook -> Prop :=
| reachable_initial h : reachable (h, initial)
| reachable_step st ev : reachable st -> reachable (step st ev).

(** [checkSession] is suspended in an [await] that the event settles with
    the rejection [e]. *)
Definition rejects (k : Hook) (ev : Event) (e : jsval) : Prop :=
  match pending k, ev with
  | AwaitGetSession, EGetSession (Rejected e') => e' = e
  | AwaitGetUser _, EGetUser (Rejected e') => e' = e
  | AwaitSignOut _, ESignedOut (Rejected e') => e' = e
  | _, _ => False
  end.

End Hook.

End UseAuth.

(** ** [URLSearchParams] *)

Module URLSearchParams.

Abbreviation t := (list (string * string)).

(** [searchParams.get(name)]: the first value, or [null]. *)
Fixpoint get (name : string) (sp : t) : option string :=
  match sp with
  | [] => None
  | (k, v) :: sp' => if String.eqb k name then Some v else get name sp'
  end.

(** [searchParams.delete(name)]: every pair of that name goes. *)
Fixpoint delete (name : string) (sp : t) : t :=
  match sp with
  | [] => []
  | (k, v) :: sp' =>
      if String.eqb k name then delete name sp' else (k, v) :: delete name sp'
  end.

(** [searchParams.set(name, value)]: the first pair of that name takes the
    value and the others go; without one the pair is appended. *)
Fixpoint set (name value : string) (sp : t) : t :=
  match sp with
  | [] => [(name, value)]
  | (k, v) :: sp' =>
      if String.eqb k name then (name, value) :: delete name sp'
      else (k, v) :: set name value sp'
  end.

End URLSearchParams.

(** ** The adaptive form: [src/components/auth/AuthForm] *)

Module AuthForm.

Inductive AuthOperationsEnum :=
| LOGIN
| REGISTER
| FORGOT_PASSWORD
| RESET_PASSWORD
| UPDATE_PASSWORD.

#[global] Instance AuthOperationsEnum_eq_dec : EqDecision AuthOperationsEnum.
Proof. solve_decision. Defined.

(** Modelled from the spec: the string values of [AuthOperationsEnum] in
    [@/types/enums], which is not among the sources: the query parameter
    is "one of login | register | forgot-password | reset-password |
    update-password". *)
Definition opValue (o : AuthOperationsEnum) : string :=
  match o with
  | LOGIN => "login"
  | REGISTER => "register"
  | FORGOT_PASSWORD => "forgot-password"
  | RESET_PASSWORD => "reset-password"
  | UPDATE_PASSWORD => "update-password"
  end.

(** [config/authFormDefaults.ts]. *)
Definition authFormDefaults (o : AuthOperationsEnum) : gmap string jsval :=
  match o with
  | LOGIN => literal [("email", VStr ""); ("password", VStr "")]
  | REGISTER =>
      literal [("email", VStr ""); ("password", VStr "");
               ("confirmPassword", VStr ""); ("name", VStr "");
               ("acceptTerms", VBool false)]
  | FORGOT_PASSWORD => literal [("email", VStr "")]
  | RESET_PASSWORD => literal [("password", VStr ""); ("confirmPassword", VStr "")]
  | UPDATE_PASSWORD =>
      literal [("currentPassword", VStr ""); ("newPassword", VStr "");
               ("confirmPassword", VStr "")]
  end.

(** [window.location], as far as [handleOperationChange] reads it. *)
Record Location := {
  pathname : string;
  search : URLSearchParams.t;
  hash : string
}.

(** The five [useState] cells, the values of the form, the auth context
    the component reads, the location, and the targets of [router.push]. *)
Record Form := {
  operation : AuthOperationsEnum;
  error : option jsval;
  isLoading : bool;
  isRedirecting : bool;
  emailSent : bool;
  values : gmap string jsval;
  auth : UseAuth.Hook;
  location : Location;
  pushed : list string
}.

Definition setOperation (v : AuthOperationsEnum) (f : Form) : Form :=
  {| operation := v; error := error f; isLoading := isLoading f;
     isRedirecting := isRedirecting f; emailSent := emailSent f;
     values := values f; auth := auth f; location := location f;
     pushed := pushed f |}.

Definition setError (v : option jsval) (f : Form) : Form :=
  {| operation := operation f; error := v; isLoading := isLoading f;
     isRedirecting := isRedirecting f; emailSent := emailSent f;
     values := values f; auth := auth f; location := location f;
     pushed := pushed f |}.

Definition setIsLoading (v : bool) (f : Form) : Form :=
  {| operation := operation f; error := error f; isLoading := v;
     isRedirecting := isRedirecting f; emailSent := emailSent f;
     values := values f; auth := auth f; location := location f;
     pushed := pushed f |}.

Definition setIsRedirecting (v : bool) (f : Form) : Form :=
  {| operation := operation f; error := error f; isLoading := isLoading f;
     isRedirecting := v; emailSent := emailSent f;
     values := values f; auth := auth f; location := location f;
     pushed := pushed f |}.

Definition setEmailSent (v : bool) (f : Form) : Form :=
  {| operation := operation f; error := error f; isLoading := isLoading f;
     isRedirecting := isRedirecting f; emailSent := v;
     values := values f; auth := auth f; location := location f;
     pushed := pushed f |}.

(** [reset(values)] of the form library. *)
Definition reset (v : gmap string jsval) (f : Form) : Form :=
  {| operation := operation f; error := error f; isLoading := isLoading f;
     isRedirecting := isRedirecting f; emailSent := emailSent f;
     values := v; auth := auth f; location := location f;
     pushed := pushed f |}.

Definition setAuth (v : UseAuth.Hook) (f : Form) : Form :=
  {| operation := operation f; error := error f; isLoading := isLoading f;
     isRedirecting := isRedirecting f; emailSent := emailSent f;
     values := values f; auth := v; location := location f;
     pushed := pushed f |}.

Definition setLocation (v : Location) (f : Form) : Form :=
  {| operation := operation f; error := error f; isLoading := isLoading f;
     isRedirecting := isRedirecting f; emailSent := emailSent f;
     values := values f; auth := auth f; location := v;
     pushed := pushed f |}.

(** [router.push(target)]. *)
Definition push (target : string) (f : Form) : Form :=
  {| operation := operation f; error := error f; isLoading := isLoading f;
     isRedirecting := isRedirecting f; emailSent := emailSent f;
     values := values f; auth := auth f; location := location f;
     pushed := pushed f ++ [target] |}.

(** The [switch] of the operation-change effect, on
    [searchParams.get('op')?.toLowerCase() ?? null]. *)
Definition newOperation (op : option string) : AuthOperationsEnum :=
  match op with
  | None => LOGIN
  | Some s =>
      if String.eqb s (opValue LOGIN) then LOGIN
      else if String.eqb s (opValue REGISTER) then REGISTER
      else if String.eqb s (opValue FORGOT_PASSWORD) then FORGOT_PASSWORD
      else if String.eqb s (opValue RESET_PASSWORD) then RESET_PASSWORD
      else if String.eqb s (opValue UPDATE_PASSWORD) then UPDATE_PASSWORD
      else LOGIN
  end.

(** The operation-change effect; [useSearchParams] gives the parameters of
    the current location. *)
Definition operationEffect (f : Form) : Form :=
  let op := toLowerCase <$> URLSearchParams.get "op" (search (location f)) in
  let newOp := newOperation op in
  if decide (newOp = operation f) then f
  else setEmailSent false
         (setError None (reset (authFormDefaults newOp) (setOperation newOp f))).

(** [handleOperationChange]: the [op] parameter of the URL is rewritten and
    the router replaces the location. *)
Definition handleOperationChange (newOp : AuthOperationsEnum) (f : Form) : Form :=
  setLocation
    {| pathname := pathname (location f);
       search := URLSearchParams.set "op" (opValue newOp) (search (location f));
       hash := hash (location f) |} f.

(** [getErrorMessage]: what the error panel shows. *)
Definition getErrorMessage (h : heap) (e : jsval) : jsval :=
  match getProp h e "code" with
  | VStr c =>
      if String.eqb c "AUTH/INVALID_CREDENTIALS"
      then VStr "Invalid email or password. Please check your credentials and try again."
      else if String.eqb c "AUTH/EMAIL_ALREADY_IN_USE"
      then VStr "This email is already registered. Please sign in instead."
      else getProp h e "message"
  | _ => getProp h e "message"
  end.

(** What a server action resolves with:
    [{ success: boolean, error?: string | AppError }]. *)
Record ActionResult := {
  success : bool;
  aerror : jsval
}.

(** [typeof error === 'string' ? error : error?.message || fallback];
    the message of an [AppError] is a string. *)
Definition errorMessageOf (h : heap) (err : jsval) (fallback : string) : string :=
  match err with
  | VStr s => s
  | _ => match getProp h err "message" with
         | VStr m => if String.eqb m "" then fallback else m
         | _ => fallback
         end
  end.

Section Submit.

Variable handleError : heap -> jsval -> list (string * jsval) -> jsval * heap.

(** The statements of [handleFormSubmit] before the [switch]. *)
Definition submit_start (f : Form) : Form :=
  setAuth (UseAuth.clearError (auth f))
    (setError None (setIsRedirecting false (setIsLoading true f))).

(** The [finally] block. *)
Definition submit_finally (f : Form) : Form := setIsLoading false f.

(** The [catch] block, followed by [finally]. *)
Definition submit_catch (h : heap) (f : Form) (e : jsval) : heap * Form :=
  let '(unexpectedError, h') :=
    handleError h e [("operation", VStr (opValue (operation f)));
                     ("originalError", e)] in
  (h', submit_finally (setError (Some unexpectedError) f)).

(** A failed server action of a branch that only shows the error. *)
Definition submit_fail (h : heap) (f : Form) (err : jsval)
    (fallback : string) (ctx : list (string * jsval)) : heap * Form :=
  let errorMessage := errorMessageOf h err fallback in
  let '(le, h1) := newError h errorMessage in
  let '(appError, h2) := handleError h1 (VRef le) ctx in
  (h2, submit_finally (setError (Some appError) f)).

(** The message says that the email is registered already. *)
Definition alreadyRegistered (errorMessage : string) : bool :=
  includes (toLowerCase errorMessage) "already registered"
  || includes (toLowerCase errorMessage) "already in use".

(** [handleFormSubmit], resumed when the call it awaits settles: a server
    action ([action]), or for [RESET_PASSWORD] the [updatePassword] of the
    auth context, which awaits [authService.updatePassword] ([svc]). *)
Definition handleFormSubmit (h : heap) (f0 : Form) (data : gmap string jsval)
    (action : UseAuth.outcome ActionResult) (svc : UseAuth.outcome jsval)
    : heap * Form :=
  let f := submit_start f0 in
  match operation f0 with
  | LOGIN =>
      match action with
      | UseAuth.Rejected e => submit_catch h f e
      | UseAuth.Resolved result =>
          if negb (success result) then
            let errorMessage := errorMessageOf h (aerror result) "Login failed" in
            let errorCode :=
              if includes errorMessage "Invalid email"
              then "AUTH/INVALID_CREDENTIALS" else "AUTH/UNKNOWN" in
            let '(le, h1) := newError h errorMessage in
            let '(appError, h2) :=
              handleError h1 (VRef le)
                [("operation", VStr "login"); ("code", VStr errorCode)] in
            (h2, submit_finally (setError (Some appError) f))
          else (h, submit_finally (push "/profile" (setIsRedirecting true f)))
      end
  | REGISTER =>
      match action with
      | UseAuth.Rejected e => submit_catch h f e
      | UseAuth.Resolved result =>
          if negb (success result) then
            let errorMessage :=
              errorMessageOf h (aerror result) "Registration failed" in
            let errorCode :=
              if alreadyRegistered errorMessage
              then "AUTH/EMAIL_ALREADY_IN_USE" else "AUTH/UNKNOWN" in
            let errorContext :=
              if alreadyRegistered errorMessage
              then [("shouldSwitchToLogin", VBool true)] else [] in
            let '(le, h1) := newError h errorMessage in
            let '(appError, h2) :=
              handleError h1 (VRef le)
                ([("operation", VStr "signup"); ("code", VStr errorCode)]
                 ++ errorContext) in
            let context := getProp h2 appError "context" in
            if truthy context && hasProp h2 context "shouldSwitchToLogin"
               && truthy (getProp h2 context "shouldSwitchToLogin")
            then (h2, submit_finally (handleOperationChange LOGIN f))
            else (h2, submit_finally (setError (Some appError) f))
          else (h, submit_finally (push "/auth/confirm" (setIsRedirecting true f)))
      end
  | FORGOT_PASSWORD =>
      match action with
      | UseAuth.Rejected e => submit_catch h f e
      | UseAuth.Resolved result =>
          if negb (success result) then
            submit_fail h f (aerror result) "Password reset failed"
              [("operation", VStr "resetPassword")]
          else (h, submit_finally (setEmailSent true f))
      end
  | RESET_PASSWORD =>
      let password :=
        match data !! "password" with Some (VStr p) => p | _ => "" end in
      let '(err, h1, a) :=
        UseAuth.updatePassword handleError h (UseAuth.op_start (auth f))
          password svc in
      let f1 := setAuth a f in
      match err with
      | Some e => (h1, submit_finally (setError (Some e) f1))
      | None => (h1, submit_finally (push "/profile" (setIsRedirecting true f1)))
      end
  | UPDATE_PASSWORD =>
      match action with
      | UseAuth.Rejected e => submit_catch h f e
      | UseAuth.Resolved result =>
          if negb (success result) then
            submit_fail h f (aerror result) "Password update failed"
              [("operation", VStr "updatePassword")]
          else (h, submit_finally (push "/profile" (setIsRedirecting true f)))
      end
  end.

End Submit.

End AuthForm.

(** ** The confirmation view: [src/components/auth/ConfirmEmailView.tsx] *)

Module ConfirmEmailView.

Inductive Status := loading | success | error.

(** What [useSearchParams()] returns: an object (or [null]).  The
    dependency array of the effect compares it by identity. *)
Record SearchParams := {
  ident : nat;
  entries : URLSearchParams.t
}.

(** The two [useState] cells, the dependency array the effect last ran
    with, and the calls [supabase.auth.verifyOtp({ token_hash, type })]
    made so far. *)
Record View := {
  status : Status;
  message : string;
  deps : option (option nat);
  verifyOtp : list (string * string)
}.

Definition initial : View :=
  {| status := loading; message := ""; deps := None; verifyOtp := [] |}.

(** [searchParams && searchParams.get(name)]. *)
Definition param (sp : option SearchParams) (name : string) : option string :=
  sp ≫= fun p => URLSearchParams.get name (entries p).

(** A value that [!] does not negate to [true]: neither [null] nor empty. *)
Definition present (v : option string) : bool :=
  match v with
  | Some s => negb (String.eqb s "")
  | None => false
  end.

(** [hasInvalidToken], computed at every render. *)
Definition hasInvalidToken (sp : option SearchParams) : bool :=
  negb (present (param sp "token_hash")) || negb (present (param sp "type")).

(** The body of the effect: [if (!token_hash || !type) return], otherwise
    [verify()], which runs up to the [await] of [verifyOtp]. *)
Definition effect (sp : option SearchParams) (v : View) : View :=
  if hasInvalidToken sp then v
  else {| status := status v; message := message v; deps := deps v;
          verifyOtp := verifyOtp v ++ [(default "" (param sp "token_hash"),
                                        default "" (param sp "type"))] |}.

(** A render with the given [searchParams]: the effect runs after the
    first render and after one whose [searchParams] is another object. *)
Definition render (sp : option SearchParams) (v : View) : View :=
  let d := Some (ident <$> sp) in
  if decide (deps v = d) then v
  else effect sp {| status := status v; message := message v; deps := d;
                    verifyOtp := verifyOtp v |}.

(** [verify] resumed: [verifyOtp] resolved with or without an [error]
    (given by its message), or it threw. *)
Definition verified (r : UseAuth.outcome (option string)) (v : View) : View :=
  match r with
  | UseAuth.Resolved (Some m) =>
      {| status := error;
         message := if String.eqb m "" then "Failed to confirm email." else m;
         deps := deps v; verifyOtp := verifyOtp v |}
  | UseAuth.Resolved None =>
      {| status := success; message := "Email confirmed! You can now log in.";
         deps := deps v; verifyOtp := verifyOtp v |}
  | UseAuth.Rejected _ =>
      {| status := error; message := "Unexpected error during confirmation.";
         deps := deps v; verifyOtp := verifyOtp v |}
  end.

(** The number of exchanges made for a token. *)
Definition exchanges (token_hash : string) (v : View) : nat :=
  length (filter (fun c => c.1 = token_hash) (verifyOtp v)).

End ConfirmEmailView.

(** ** The email verification route handler ([GET]) *)

Module ConfirmRoute.

Record URL := {
  origin : string;
  pathname : string;
  searchParams : URLSearchParams.t;
  hash : string
}.

Definition withSearchParams (sp : URLSearchParams.t) (u : URL) : URL :=
  {| origin := origin u; pathname := pathname u; searchParams := sp;
     hash := hash u |}.

(** A response: the target of a redirect, and its headers. *)
Record Response := {
  redirect : option URL;
  headers : list (string * string)
}.

(** [NextResponse.redirect(url)]. *)
Definition NextResponse_redirect (u : URL) : Response :=
  {| redirect := Some u; headers := [] |}.

(** The [error] of [verifyOtp]'s result. *)
Record AuthError := {
  message : string;
  code : string
}.

(** What the handler did: the response it returns or the exception it
    rethrows, and the exchange it asked the identity provider for, if any
    ([type], [token_hash]). *)
Record Handled := {
  response : UseAuth.outcome Response;
  exchange : option (string * string)
}.

(** Modelled from the spec: [handleApiError] of [@/lib/error/server], which
    is not among the sources: "on failure redirects to an error page
    carrying a machine-readable [code]".  The page is the one the handler
    itself redirects to for a link without its parameters. *)
Definition handleApiError (err : AuthError) (request : URL)
    (ctx : list (string * jsval)) : Response :=
  NextResponse_redirect
    {| origin := origin request; pathname := "/auth/auth-code-error";
       searchParams := URLSearchParams.set "code" (code err) []; hash := "" |}.

Section Route.

(** [new URL(next, origin)] of the platform: the URL, or the [TypeError]
    it throws for a [next] that it cannot parse. *)
Variable newURL : string -> string -> UseAuth.outcome URL.

(** [applySecurityHeaders] of [@/lib/security/headers]. *)
Variable applySecurityHeaders : Response -> Response.

(** [a || b] on a string that may be [null]. *)
Definition orElse (a : option string) (b : string) : string :=
  match a with
  | Some s => if String.eqb s "" then b else s
  | None => b
  end.

(** The handler that [withRateLimit] and [withApiErrorHandler] wrap.
    [createClient] is how the creation of the provider's client settles
    and [verifyOtp] how the exchange settles, when they are made.  The
    target of the redirect is parsed before the parameters are looked at,
    and the client is created outside the [try]: what either throws
    leaves the handler. *)
Definition GET (request : URL) (createClient : UseAuth.outcome unit)
    (verifyOtp : UseAuth.outcome (option AuthError)) : Handled :=
  let token_hash := URLSearchParams.get "token_hash" (searchParams request) in
  let type := URLSearchParams.get "type" (searchParams request) in
  let next := orElse (URLSearchParams.get "next" (searchParams request)) "/profile" in
  match newURL next (origin request) with
  | UseAuth.Rejected e => {| response := UseAuth.Rejected e; exchange := None |}
  | UseAuth.Resolved redirectTo =>
      let redirectTo :=
        withSearchParams
          (URLSearchParams.delete "token_hash" (searchParams redirectTo))
          redirectTo in
      let redirectTo :=
        withSearchParams (URLSearchParams.delete "type" (searchParams redirectTo))
          redirectTo in
      if ConfirmEmailView.present token_hash && ConfirmEmailView.present type then
        match createClient with
        | UseAuth.Rejected e =>
            {| response := UseAuth.Rejected e; exchange := None |}
        | UseAuth.Resolved _ =>
            let ex := Some (default "" type, default "" token_hash) in
            match verifyOtp with
            | UseAuth.Resolved None =>
                let redirectTo :=
                  withSearchParams
                    (URLSearchParams.set "verified" "true" (searchParams redirectTo))
                    redirectTo in
                {| response :=
                     UseAuth.Resolved
                       (applySecurityHeaders (NextResponse_redirect redirectTo));
                   exchange := ex |}
            | UseAuth.Resolved (Some err) =>
                {| response :=
                     UseAuth.Resolved
                       (handleApiError err request
                          [("operation", VStr "email-verification");
                           ("tokenHashPresent", VBool true);
                           ("type", VStr (default "" type))]);
                   exchange := ex |}
            | UseAuth.Rejected e =>
                {| response := UseAuth.Rejected e; exchange := ex |}
            end
        end
      else
        let errorUrl :=
          {| origin := origin request; pathname := "/auth/auth-code-error";
             searchParams :=
               URLSearchParams.set "code" "invalid_verification_link" [];
             hash := "" |} in
        {| response :=
             UseAuth.Resolved (applySecurityHeaders (NextResponse_redirect errorUrl));
           exchange := None |}
  end.

End Route.

(** *** [new URL(next, origin)] for a path-absolute [next] without escapes
    and dot segments: [/path?k=v&k=v#hash]. *)

Fixpoint splitOn (c : ascii) (s : string) : list string :=
  match s with
  | EmptyString => [EmptyString]
  | String a s' =>
      if Ascii.eqb a c then EmptyString :: splitOn c s'
      else match splitOn c s' with
           | x :: xs => String a x :: xs
           | [] => [String a EmptyString]
           end
  end.

(** The part before the first [c], and the part after it. *)
Fixpoint cut (c : ascii) (s : string) : string * option string :=
  match s with
  | EmptyString => (EmptyString, None)
  | String a s' =>
      if Ascii.eqb a c then (EmptyString, Some s')
      else let '(x, r) := cut c s' in (String a x, r)
  end.

Definition parseQuery (q : string) : URLSearchParams.t :=
  omap (fun kv => if String.eqb kv "" then None
                  else let '(k, v) := cut "=" kv in Some (k, default "" v))
       (splitOn "&" q).

Definition pathAbsoluteURL (next base : string) : URL :=
  let '(rest, h) := cut "#" next in
  let '(p, q) := cut "?" rest in
  {| origin := base; pathname := p;
     searchParams := parseQuery (default "" q);
     hash := match h with Some x => "#" ++ x | None => "" end |}.

(** The [TypeError] that the parser throws for an invalid URL, an object
    of the platform. *)
Definition invalidURL : jsval := VRef 1%positive.

(** [new URL(next, base)] on the targets that the samples use, and on
    these only: a path-absolute [next] as above, and [http://] and
    [https://], which name no host and which the parser refuses. *)
Definition parseURL (next base : string) : UseAuth.outcome URL :=
  if String.eqb next "http://" || String.eqb next "https://"
  then UseAuth.Rejected invalidURL
  else UseAuth.Resolved (pathAbsoluteURL next base).

End ConfirmRoute.

(** ** The queries of the session store: [src/hooks/useAuth.ts] *)

Module UseAuthQueries.

Import UseAuth.

(** [hasRole]: [!!role]. *)
Definition hasRole (role : string) : bool := negb (String.eqb role "").

(** [isCurrentUser]: [authUser?.id === userId]. *)
Definition isCurrentUser (k : Hook) (userId : string) : bool :=
  match authUser k with
  | Some u => String.eqb (id u) userId
  | None => false
  end.

(** [error?.code?.startsWith(prefix) ?? false]; the code of an [AppError]
    is a string. *)
Definition codeStartsWith (h : heap) (k : Hook) (p : string) : bool :=
  match error k with
  | Some e => match getProp h e "code" with
              | VStr c => String.prefix p c
              | _ => false
              end
  | None => false
  end.

Definition isAuthError (h : heap) (k : Hook) : bool := codeStartsWith h k "AUTH/".

Definition isValidationError (h : heap) (k : Hook) : bool :=
  codeStartsWith h k "VALIDATION/".

Definition isNetworkError (h : heap) (k : Hook) : bool :=
  codeStartsWith h k "NETWORK/".

(** The events that resume the mount effect: the three awaits of
    [checkSession] and the subscription callback. *)
Definition ofEffect (ev : Event) : bool :=
  match ev with
  | EGetSession _ | EGetUser _ | ESignedOut _ | EAuthStateChange _ _ => true
  | _ => false
  end.

(** The context that [checkSession] gives the classifier. *)
Definition checkSessionContext : list (string * jsval) :=
  [("operation", VStr "checkSession"); ("hook", VStr "useAuth");
   ("authErrorType", VUndefined)].


(** The cookie that the forced sign-out leaves for the next render. *)
Definition signOutReasonCookie : string :=
  "signout-reason=user-not-found; Max-Age=5; Path=/; SameSite=Strict".

End UseAuthQueries.

(** ** What the operations return, and what the events bring *)

Module UseAuthEvents.

Import UseAuth.

(** The raw error of a call: the [error] of the response it resolved
    with, or what it threw. *)
Definition rawError (r : outcome jsval) : jsval :=
  match r with
  | Resolved err => err
  | Rejected e => e
  end.

(** The [operation] that an auth operation names in the context it gives
    the classifier. *)
Definition operationName (op : AuthOp) : string :=
  match op with
  | SignIn _ _ => "signIn"
  | SignInWithProvider _ => "signInWithProvider"
  | SignUpWithEmail _ _ _ => "signUpWithEmail"
  | ResetPassword _ => "resetPassword"
  | UpdatePassword _ => "updatePassword"
  | SignOut _ => "signOut"
  end.

(** The event resumes [checkSession] with a call that resolved. *)
Definition checkResolved (ev : Event) : bool :=
  match ev with
  | EGetSession (Resolved _) | EGetUser (Resolved _) | ESignedOut (Resolved _) =>
      true
  | _ => false
  end.

(** The event brings a signed-out result: a fetch of the session that
    resolves with none, or an auth-state-change without a session. *)
Definition signedOutResult (ev : Event) : bool :=
  match ev with
  | EGetSession (Resolved None) | ERefreshSession (Resolved None)
  | EAuthStateChange _ None => true
  | _ => false
  end.

End UseAuthEvents.

(** ** [String.prototype.split] *)

Module JSString.

(** [s.split(sep)] for a separator that is not empty.  [skip] counts the
    characters of a separator found that are still to be passed over; the
    head of the result is the piece being read. *)
Fixpoint splitFrom (sep : string) (skip : nat) (s : string) : list string :=
  match s with
  | EmptyString => [EmptyString]
  | String a s' =>
      match skip with
      | S n => splitFrom sep n s'
      | O =>
          if String.prefix sep s
          then EmptyString :: splitFrom sep (String.length sep - 1) s'
          else match splitFrom sep 0 s' with
               | x :: xs => String a x :: xs
               | [] => [String a EmptyString]
               end
      end
  end.

Definition split (sep s : string) : list string := splitFrom sep 0 s.

(** The character occurs in the string. *)
Fixpoint mentions (c : ascii) (s : string) : bool :=
  match s with
  | EmptyString => false
  | String a s' => Ascii.eqb a c || mentions c s'
  end.

End JSString.

(** ** The rest of the form component:
    [src/components/auth/AuthForm/index.tsx] *)

Module AuthFormPage.

Import AuthForm.

(** [document.cookie.split('; ').find((row) =>
    row.startsWith('signout-reason='))?.split('=')[1]]. *)
Definition signOutReason (documentCookie : string) : option string :=
  List.find (String.prefix "signout-reason=") (JSString.split "; " documentCookie)
  ≫= fun row => JSString.split "=" row !! 1%nat.

(** The assignment to [document.cookie] that removes the cookie. *)
Definition removeSignOutReason : string :=
  "signout-reason=; path=/; expires=Thu, 01 Jan 1970 00:00:00 GMT".

Section Page.

Variable handleError : heap -> jsval -> list (string * jsval) -> jsval * heap.

(** [handleError(new Error('User not found'), { operation: 'authCheck',
    originalError: new Error(`Sign out reason: ${signOutReason}`) })]. *)
Definition userNotFoundError (h : heap) (reason : string) : jsval * heap :=
  let '(le, h1) := newError h "User not found" in
  let '(lo, h2) := newError h1 ("Sign out reason: " ++ reason) in
  handleError h2 (VRef le)
    [("operation", VStr "authCheck"); ("originalError", VRef lo)].

(** The effect that runs once after the first render, on the value of
    [document.cookie]; it gives the assignments it makes to
    [document.cookie] as well. *)
Definition checkSignOutReason (h : heap) (f : Form) (documentCookie : string)
    : heap * Form * list string :=
  match signOutReason documentCookie with
  | Some reason =>
      if String.eqb reason "user-not-found" then
        let '(e, h') := userNotFoundError h reason in
        (h', setError (Some e) f, [removeSignOutReason])
      else (h, f, [])
  | None => (h, f, [])
  end.

End Page.

(** The button of the "check your email" panel:
    [setEmailSent(false); handleOperationChange(AuthOperationsEnum.LOGIN)]. *)
Definition backToLogin (f : Form) : Form :=
  handleOperationChange LOGIN (setEmailSent false f).

(** The button of the error panel: [setError(null); clearError()]. *)
Definition dismiss (f : Form) : Form :=
  setAuth (UseAuth.clearError (auth f)) (setError None f).

(** The form shows the buttons of the providers. *)
Definition showsLoginButtons (o : AuthOperationsEnum) : bool :=
  bool_decide (o = LOGIN) || bool_decide (o = REGISTER).

End AuthFormPage.

(** ** The fields of the form: [AuthFormFields.tsx] *)

Module AuthFormFields.

Import AuthForm.

Inductive Field :=
| EmailField
| PasswordField (name label : string)
| NameField
| TermsCheckbox.

(** The name that the field registers with the form. *)
Definition fieldName (x : Field) : string :=
  match x with
  | EmailField => "email"
  | PasswordField name _ => name
  | NameField => "name"
  | TermsCheckbox => "acceptTerms"
  end.

(** The fields that [AuthFormFields] renders for an operation, in order. *)
Definition AuthFormFields (operation : AuthOperationsEnum) : list Field :=
  ((if bool_decide (operation <> RESET_PASSWORD)
       && bool_decide (operation <> UPDATE_PASSWORD)
    then EmailField ::
         (if bool_decide (operation <> FORGOT_PASSWORD)
          then PasswordField "password" "Password" ::
               (if bool_decide (operation = REGISTER)
                then [PasswordField "confirmPassword" "Confirm Password";
                      NameField; TermsCheckbox]
                else [])
          else [])
    else [])
   ++ (if bool_decide (operation = RESET_PASSWORD)
       then [PasswordField "password" "New Password";
             PasswordField "confirmPassword" "Confirm New Password"]
       else [])
   ++ (if bool_decide (operation = UPDATE_PASSWORD)
       then [PasswordField "currentPassword" "Current Password";
             PasswordField "newPassword" "New Password";
             PasswordField "confirmPassword" "Confirm New Password"]
       else []))%list.

(** The names that the fields of an operation register. *)
Definition names (operation : AuthOperationsEnum) : list string :=
  fieldName <$> AuthFormFields operation.

Definition isPasswordField (x : Field) : bool :=
  match x with
  | PasswordField _ _ => true
  | _ => false
  end.

(** The label of the password field of that name, if the operation has
    one. *)
Definition labelOf (name : string) (operation : AuthOperationsEnum) : option string :=
  match List.find (fun x => isPasswordField x && String.eqb (fieldName x) name)
                  (AuthFormFields operation) with
  | Some (PasswordField _ label) => Some label
  | _ => None
  end.

End AuthFormFields.

(** ** The form hook: [useAuthForm] *)

Module UseAuthForm.

Import AuthForm.

(** [defaultValuesMap]: the values that [useForm] starts with. *)
Definition defaultValuesMap (o : AuthOperationsEnum) : gmap string jsval :=
  match o with
  | LOGIN => literal [("email", VStr ""); ("password", VStr "")]
  | REGISTER =>
      literal [("email", VStr ""); ("password", VStr "");
               ("confirmPassword", VStr ""); ("name", VStr "");
               ("acceptTerms", VBool false)]
  | FORGOT_PASSWORD => literal [("email", VStr "")]
  | RESET_PASSWORD => literal [("password", VStr ""); ("confirmPassword", VStr "")]
  | UPDATE_PASSWORD =>
      literal [("currentPassword", VStr ""); ("newPassword", VStr "");
               ("confirmPassword", VStr "")]
  end.

End UseAuthForm.

(** ** [src/components/auth/AuthForm/utils/authHelpers.ts] *)

Module AuthHelpers.

Import AuthForm.

Definition operationRequiresEmail (operation : AuthOperationsEnum) : bool :=
  bool_decide (operation ∈ [LOGIN; REGISTER; FORGOT_PASSWORD]).

Definition operationRequiresPassword (operation : AuthOperationsEnum) : bool :=
  bool_decide (operation ∈ [LOGIN; REGISTER; RESET_PASSWORD; UPDATE_PASSWORD]).

Definition operationRequiresName (operation : AuthOperationsEnum) : bool :=
  bool_decide (operation = REGISTER).

Definition operationRequiresTerms (operation : AuthOperationsEnum) : bool :=
  bool_decide (operation = REGISTER).

Definition operationShowsSocialLogin (operation : AuthOperationsEnum) : bool :=
  bool_decide (operation ∈ [LOGIN; REGISTER]).

Record PasswordRequirements := {
  showCurrentPassword : bool;
  showNewPassword : bool;
  showConfirmPassword : bool;
  passwordLabel : string
}.

Definition getPasswordRequirements (operation : AuthOperationsEnum)
    : PasswordRequirements :=
  match operation with
  | LOGIN =>
      {| showCurrentPassword := false; showNewPassword := false;
         showConfirmPassword := false; passwordLabel := "Password" |}
  | REGISTER =>
      {| showCurrentPassword := false; showNewPassword := false;
         showConfirmPassword := true; passwordLabel := "Password" |}
  | RESET_PASSWORD =>
      {| showCurrentPassword := false; showNewPassword := true;
         showConfirmPassword := true; passwordLabel := "New Password" |}
  | UPDATE_PASSWORD =>
      {| showCurrentPassword := true; showNewPassword := true;
         showConfirmPassword := true; passwordLabel := "New Password" |}
  | _ =>
      {| showCurrentPassword := false; showNewPassword := false;
         showConfirmPassword := false; passwordLabel := "Password" |}
  end.

Definition isPasswordResetOperation (operation : AuthOperationsEnum) : bool :=
  bool_decide (operation ∈ [FORGOT_PASSWORD; RESET_PASSWORD]).

End AuthHelpers.

(** ** The life of the confirmation view *)

Module ConfirmEmailViewRuns.

Import ConfirmEmailView.

(** What happens to the mounted view: it is rendered with the current
    [searchParams], or an exchange it started settles. *)
Inductive Event :=
| Render (sp : option SearchParams)
| Verified (r : UseAuth.outcome (option string)).

Definition apply (v : View) (e : Event) : View :=
  match e with
  | Render sp => render sp v
  | Verified r => verified r v
  end.

Definition run (es : list Event) (v : View) : View := foldl apply v es.

(** The event renders with a link that lacks a parameter, or is no
    render. *)
Definition invalid (e : Event) : Prop :=
  match e with
  | Render sp => hasInvalidToken sp = true
  | Verified _ => True
  end.

(** The event renders with the very [searchParams] object [sp], or is no
    render. *)
Definition sameObject (sp : option SearchParams) (e : Event) : Prop :=
  match e with
  | Render sp' => sp' = sp
  | Verified _ => True
  end.

End ConfirmEmailViewRuns.

(** ** The security configuration ([@/config/security]) *)

Module SecurityConfig.

(** A value of [CSP_CONFIG]: an array of sources, or a flag. *)
Inductive CspValue :=
| Sources (l : list string)
| Flag (b : bool).

(** The source that stands for the nonce of a request. *)
Definition noncePlaceholder : string := "'nonce-{NONCE}'".

Definition isUpper (c : ascii) : bool :=
  let n := nat_of_ascii c in (65 <=? n)%nat && (n <=? 90)%nat.

(** [key.replace(/([A-Z])/g, '-$1')]. *)
Fixpoint dashUpper (s : string) : string :=
  match s with
  | EmptyString => EmptyString
  | String c s' =>
      if isUpper c then String "-" (String c (dashUpper s'))
      else String c (dashUpper s')
  end.

(** [process.env[name]] is set and not empty. *)
Definition envSet (env : gmap string string) (name : string) : bool :=
  match env !! name with
  | Some v => negb (String.eqb v "")
  | None => false
  end.

(** [obj[k] = v] on an object given by its entries in order. *)
Fixpoint setEntry (k v : string) (l : list (string * string)) : list (string * string) :=
  match l with
  | [] => [(k, v)]
  | (k', v') :: l' =>
      if String.eqb k' k then (k, v) :: l' else (k', v') :: setEntry k v l'
  end.

(** [obj[k]]. *)
Fixpoint getEntry (k : string) (l : list (string * string)) : option string :=
  match l with
  | [] => None
  | (k', v') :: l' => if String.eqb k' k then Some v' else getEntry k l'
  end.

Section Env.

(** [process.env.NODE_ENV === 'production'] and [=== 'development'], read
    when the module is loaded. *)
Variable isProduction isDevelopment : bool.

Definition CSP_CONFIG : list (string * CspValue) :=
  [("defaultSrc", Sources ["'self'"]);
   ("scriptSrc",
      Sources (["'self'"; "'nonce-{NONCE}'"; "https://*.supabase.co"]
               ++ (if isDevelopment then ["'unsafe-eval'"] else [])));
   ("styleSrc",
      Sources ["'self'"; "'unsafe-inline'"; "https://fonts.googleapis.com"]);
   ("imgSrc",
      Sources ["'self'"; "data:"; "https:"; "http:"; "https://*.supabase.co"]);
   ("fontSrc", Sources ["'self'"; "data:"; "https://fonts.gstatic.com"]);
   ("connectSrc",
      Sources (["'self'"; "https://*.supabase.co"; "wss://*.supabase.co";
                "https://*.sentry.io"]
               ++ (if isDevelopment
                   then ["http://localhost:*"; "ws://localhost:*"] else [])));
   ("frameSrc", Sources ["'self'"; "https://*.supabase.co"]);
   ("objectSrc", Sources ["'none'"]);
   ("baseUri", Sources ["'self'"]);
   ("formAction", Sources ["'self'"]);
   ("frameAncestors", Sources ["'none'"])]
  ++ (if isProduction then [("upgradeInsecureRequests", Flag true)] else []).

Definition SECURITY_HEADERS : list (string * string) :=
  [("Content-Security-Policy", "");
   ("X-Frame-Options", "DENY");
   ("X-Content-Type-Options", "nosniff");
   ("X-XSS-Protection", "1; mode=block");
   ("Strict-Transport-Security",
      if isProduction then "max-age=31536000; includeSubDomains; preload"
      else "max-age=0");
   ("Referrer-Policy", "strict-origin-when-cross-origin");
   ("X-Download-Options", "noopen");
   ("Cross-Origin-Opener-Policy", "same-origin");
   ("Cross-Origin-Resource-Policy", "same-site");
   ("Cross-Origin-Embedder-Policy", "unsafe-none");
   ("Permissions-Policy",
      String.concat ", "
        ["camera=()"; "microphone=()"; "geolocation=()"; "fullscreen=()";
         "payment=()"; "usb=()"; "magnetometer=()"; "gyroscope=()";
         "accelerometer=()"; "ambient-light-sensor=()"; "autoplay=()";
         "encrypted-media=()"; "picture-in-picture=()"]);
   ("Server", "Structura");
   ("X-Powered-By", "")].

(** [nonce && source === "'nonce-{NONCE}'" ? `'nonce-${nonce}'` : source]. *)
Definition withNonce (nonce : option string) (source : string) : string :=
  match nonce with
  | Some n =>
      if negb (String.eqb n "") && String.eqb source noncePlaceholder
      then "'nonce-" ++ n ++ "'" else source
  | None => source
  end.

(** The name of the directive of a key. *)
Definition directiveName (key : string) : string := toLowerCase (dashUpper key).

(** The callback of the [map] over [Object.entries(CSP_CONFIG)]. *)
Definition directive (nonce : option string) (entry : string * CspValue) : string :=
  let '(key, value) := entry in
  match value with
  | Flag true =>
      if String.eqb key "upgradeInsecureRequests" then "upgrade-insecure-requests"
      else directiveName key ++ " true"
  | Flag false => directiveName key ++ " false"
  | Sources l =>
      directiveName key ++ " " ++ String.concat " " (withNonce nonce <$> l)
  end.

Definition generateCSPHeader (nonce : option string) : string :=
  String.concat "; " (directive nonce <$> CSP_CONFIG).

Definition getSecurityHeaders (nonce : option string) : list (string * string) :=
  setEntry "Content-Security-Policy" (generateCSPHeader nonce) SECURITY_HEADERS.

(** [validateSecurityConfig], on the environment: [isValid] and [errors]. *)
Definition validateSecurityConfig (env : gmap string string) : bool * list string :=
  let errors :=
    (flat_map
       (fun envVar =>
          if envSet env envVar then []
          else [("Missing required environment variable: " ++ envVar)%string])
       ["NEXT_PUBLIC_SUPABASE_URL"; "NEXT_PUBLIC_SUPABASE_ANON_KEY"; "NODE_ENV"]
     ++ (if envSet env "NEXT_PUBLIC_SUPABASE_URL"
            && negb (String.prefix "https://"
                       (default "" (env !! "NEXT_PUBLIC_SUPABASE_URL")))
         then ["NEXT_PUBLIC_SUPABASE_URL must use HTTPS"] else [])
     ++ (if isProduction
         then if envSet env "SENTRY_DSN" then []
              else ["SENTRY_DSN is required in production"]
         else []))%list in
  (Nat.eqb (List.length errors) 0, errors).

(** The sources of a directive of the policy after the nonce is put in. *)
Definition sourcesOf (nonce : option string) (key : string) : list string :=
  match List.find (fun e => String.eqb e.1 key) CSP_CONFIG with
  | Some (_, Sources l) => withNonce nonce <$> l
  | _ => []
  end.

End Env.

End SecurityConfig.

(** ** [src/components/auth/ProtectedRoute.tsx] *)

Module ProtectedRoute.

(** The props after their defaults ([redirectUnauthenticated = true],
    [loginPath = '/auth']); [fallback] names the element given, if any. *)
Record Props := {
  fallback : option string;
  redirectUnauthenticated : bool;
  loginPath : string
}.

Inductive Rendered :=
| Fallback (element : string)
| Spinner
| Children.

(** [!!authUser] of the auth context. *)
Definition hasUser (k : UseAuth.Hook) : bool :=
  bool_decide (is_Some (UseAuth.authUser k)).

(** The effect: the targets it pushes to the router. *)
Definition effect (k : UseAuth.Hook) (p : Props) : list string :=
  if negb (UseAuth.isLoading k) && negb (hasUser k) && redirectUnauthenticated p
  then [loginPath p] else [].

Definition render (k : UseAuth.Hook) (p : Props) : Rendered :=
  if UseAuth.isLoading k || (redirectUnauthenticated p && negb (hasUser k))
  then match fallback p with
       | Some element => Fallback element
       | None => Spinner
       end
  else Children.

End ProtectedRoute.

(** ** [src/components/auth/ServerAuth.tsx] *)

Module ServerAuth.

(** The props after their defaults; [checkAccess] is the callback of the
    caller, given by how its result settles (it may throw). *)
Record Props := {
  required : bool;
  loginPath : string;
  checkAccess :
    option (bool -> option UseAuth.AuthUser -> option UseAuth.Session ->
            UseAuth.outcome bool)
}.

(** What the first effect does: the callbacks it calls and the targets it
    pushes to the router. *)
Inductive Action :=
| AccessDenied
| Push (path : string)
| AccessGranted.

Inductive Rendered :=
| Loading
| Fallback
| Children.

Definition isAuthenticated (k : UseAuth.Hook) : bool :=
  bool_decide (is_Some (UseAuth.authUser k)).

Definition checkAccessControl (k : UseAuth.Hook) (p : Props) : bool :=
  if UseAuth.isLoading k then false
  else match checkAccess p with
       | None => isAuthenticated k || negb (required p)
       | Some check =>
           match check (isAuthenticated k) (UseAuth.authUser k) (UseAuth.session k) with
           | UseAuth.Resolved hasAccess => hasAccess
           | UseAuth.Rejected _ => false
           end
       end.

(** The first effect, [verifyAccess]. *)
Definition verifyAccess (k : UseAuth.Hook) (p : Props) : list Action :=
  if UseAuth.isLoading k then []
  else
    let hasAccess := checkAccessControl k p in
    if required p && negb hasAccess then [AccessDenied; Push (loginPath p)]
    else if hasAccess then [AccessGranted]
    else [].

(** The second effect, [verify], of a component that stays mounted: the
    [hasAccess] state after it. *)
Definition verify (k : UseAuth.Hook) (p : Props) (hasAccess : option bool)
    : option bool :=
  match checkAccess p with
  | None => hasAccess
  | Some _ =>
      if UseAuth.isLoading k then hasAccess
      else Some (checkAccessControl k p)
  end.

Definition render (k : UseAuth.Hook) (p : Props) (hasAccess : option bool)
    : Rendered :=
  if UseAuth.isLoading k then Loading
  else
    let showContent := if required p then isAuthenticated k else true in
    if negb showContent then Fallback
    else if bool_decide (is_Some (checkAccess p))
            && bool_decide (hasAccess = Some false)
    then Fallback
    else Children.

End ServerAuth.

(** ** Sample data *)

Module Samples.

Import UseAuth.

Definition alice : AuthUser :=
  {| id := "7f3c"; email := "user@test.com"; email_confirmed := true;
     provider := "email" |}.

Definition aliceSession : Session :=
  {| access_token := "at-1"; refresh_token := "rt-1"; expires_at := 1767225600;
     user := alice |}.

(** A heap holding the [Error] that the identity provider throws for a
    stale refresh token. *)
Definition staleHeap : heap :=
  <[1%positive := JSObj true (literal
      [("message", VStr "Invalid Refresh Token: Refresh Token Not Found")])]> ∅.

(** A heap holding the [Error] of a sign-in with a wrong password. *)
Definition credHeap : heap :=
  <[1%positive := JSObj true (literal
      [("message", VStr "Invalid login credentials")])]> ∅.

(** A heap holding an [AppError] and its context. *)
Definition appHeap : heap :=
  <[2%positive := JSObj true (literal
      [("code", VStr "AUTH/INVALID_CREDENTIALS");
       ("message", VStr "Invalid login credentials");
       ("context", VRef 1%positive);
       ("statusCode", VNum 401);
       ("isOperational", VBool true)])]>
  (<[1%positive := JSObj false (literal [("operation", VStr "signIn")])]> ∅).

(** Mounted, then signed in by the subscription and by the session check. *)
Definition signedIn : heap * Hook :=
  step ErrorLib.isAppError ErrorLib.handleClientError
    (step ErrorLib.isAppError ErrorLib.handleClientError
       (step ErrorLib.isAppError ErrorLib.handleClientError
          (∅, initial) EMount)
       (EGetSession (Resolved (Some aliceSession))))
    (EGetUser (Resolved (Some alice))).

(** Mounted and signed in by the subscription, an error on display from a
    failed [refreshSession], the session check still awaiting
    [getSession]. *)
Definition stale : heap * Hook :=
  step ErrorLib.isAppError ErrorLib.handleClientError
    (step ErrorLib.isAppError ErrorLib.handleClientError
       (step ErrorLib.isAppError ErrorLib.handleClientError
          (staleHeap, initial) EMount)
       (EAuthStateChange "SIGNED_IN" (Some aliceSession)))
    (ERefreshSession (Rejected (VStr "Failed to fetch"))).

(** A registration form with what the visitor typed, an error on display
    and the success flag set, while the URL already names another
    operation. *)
Definition typedForm : AuthForm.Form :=
  {| AuthForm.operation := AuthForm.REGISTER;
     AuthForm.error := Some (VRef 2%positive);
     AuthForm.isLoading := false;
     AuthForm.isRedirecting := false;
     AuthForm.emailSent := true;
     AuthForm.values :=
       literal [("email", VStr "user@test.com"); ("password", VStr "s3cret-Pass");
                ("confirmPassword", VStr "s3cret-Pass"); ("name", VStr "Ada");
                ("acceptTerms", VBool true)];
     AuthForm.auth := mount initial;
     AuthForm.location :=
       {| AuthForm.pathname := "/auth";
          AuthForm.search := [("op", "Forgot-Password")];
          AuthForm.hash := "" |};
     AuthForm.pushed := [] |}.

(** The form of an operation as the page shows it first. *)
Definition freshForm (o : AuthForm.AuthOperationsEnum) : AuthForm.Form :=
  {| AuthForm.operation := o;
     AuthForm.error := None;
     AuthForm.isLoading := false;
     AuthForm.isRedirecting := false;
     AuthForm.emailSent := false;
     AuthForm.values := AuthForm.authFormDefaults o;
     AuthForm.auth := mount initial;
     AuthForm.location :=
       {| AuthForm.pathname := "/auth";
          AuthForm.search := [("op", AuthForm.opValue o)];
          AuthForm.hash := "" |};
     AuthForm.pushed := [] |}.

(** The parameters of a confirmation link, and the object that
    [useSearchParams] gives once an unrelated parameter joins the URL. *)
Definition link : ConfirmEmailView.SearchParams :=
  {| ConfirmEmailView.ident := 1;
     ConfirmEmailView.entries := [("token_hash", "abc"); ("type", "email")] |}.

Definition linkAgain : ConfirmEmailView.SearchParams :=
  {| ConfirmEmailView.ident := 2;
     ConfirmEmailView.entries :=
       [("token_hash", "abc"); ("type", "email"); ("lang", "en")] |}.

(** Security headers put on a response. *)
Definition withSecurityHeaders (r : ConfirmRoute.Response) : ConfirmRoute.Response :=
  {| ConfirmRoute.redirect := ConfirmRoute.redirect r;
     ConfirmRoute.headers :=
       ConfirmRoute.headers r ++ [("X-Frame-Options", "DENY")] |}.

(** A request of the verification route. *)
Definition confirmRequest : ConfirmRoute.URL :=
  {| ConfirmRoute.origin := "https://app.test";
     ConfirmRoute.pathname := "/api/auth/confirm";
     ConfirmRoute.searchParams :=
       [("token_hash", "abc"); ("type", "recovery");
        ("next", "/settings?type=recovery&tab=security#password")];
     ConfirmRoute.hash := "" |}.

End Samples.

(** ** More sample data *)

Module Scenarios.

Import UseAuth.

(** Mounted, the session check awaiting [getUser] for a fetched session. *)
Definition awaitingUser : heap * Hook :=
  step ErrorLib.isAppError ErrorLib.handleClientError
    (step ErrorLib.isAppError ErrorLib.handleClientError (∅, initial) EMount)
    (EGetSession (Resolved (Some Samples.aliceSession))).

(** Mounted and signed in by the subscription, then unmounted while the
    session check still awaits [getSession]. *)
Definition unmounted : heap * Hook :=
  step ErrorLib.isAppError ErrorLib.handleClientError
    (step ErrorLib.isAppError ErrorLib.handleClientError
       (step ErrorLib.isAppError ErrorLib.handleClientError
          (Samples.staleHeap, initial) EMount)
       (EAuthStateChange "SIGNED_IN" (Some Samples.aliceSession)))
    EUnmount.

(** A protected route with its defaults. *)
Definition protectedRoute : ProtectedRoute.Props :=
  {| ProtectedRoute.fallback := None;
     ProtectedRoute.redirectUnauthenticated := true;
     ProtectedRoute.loginPath := "/auth" |}.

(** [ServerAuth] with its defaults. *)
Definition serverAuth : ServerAuth.Props :=
  {| ServerAuth.required := true;
     ServerAuth.loginPath := "/auth";
     ServerAuth.checkAccess := None |}.

(** A custom check that admits confirmed emails only and throws without a
    user. *)
Definition confirmedOnly (isAuthenticated : bool) (u : option AuthUser)
    (s : option Session) : outcome bool :=
  match u with
  | Some u' => Resolved (email_confirmed u')
  | None => Rejected (VStr "no user")
  end.

Definition bob : AuthUser :=
  {| id := "91ab"; email := "bob@test.com"; email_confirmed := false;
     provider := "email" |}.

Definition bobSession : Session :=
  {| access_token := "at-2"; refresh_token := "rt-2"; expires_at := 1767225600;
     user := bob |}.

(** Signed in by the subscription with an unconfirmed email, the session
    check settled on no session. *)
Definition bobSignedIn : heap * Hook :=
  step ErrorLib.isAppError ErrorLib.handleClientError
    (step ErrorLib.isAppError ErrorLib.handleClientError
       (step ErrorLib.isAppError ErrorLib.handleClientError (∅, initial) EMount)
       (EGetSession (Resolved None)))
    (EAuthStateChange "SIGNED_IN" (Some bobSession)).

Definition confirmedOnlyAuth : ServerAuth.Props :=
  {| ServerAuth.required := true;
     ServerAuth.loginPath := "/auth";
     ServerAuth.checkAccess := Some confirmedOnly |}.

(** A link of the verification route without its [type]. *)
Definition incompleteRequest : ConfirmRoute.URL :=
  {| ConfirmRoute.origin := "https://app.test";
     ConfirmRoute.pathname := "/api/auth/confirm";
     ConfirmRoute.searchParams := [("token_hash", "abc"); ("next", "/settings")];
     ConfirmRoute.hash := "" |}.

(** A complete link whose [next] target the platform cannot parse. *)
Definition unparsableRequest : ConfirmRoute.URL :=
  {| ConfirmRoute.origin := "https://app.test";
     ConfirmRoute.pathname := "/api/auth/confirm";
     ConfirmRoute.searchParams :=
       [("token_hash", "abc"); ("type", "recovery"); ("next", "http://")];
     ConfirmRoute.hash := "" |}.

(** The parameters of a link without its token. *)
Definition brokenLink : ConfirmEmailView.SearchParams :=
  {| ConfirmEmailView.ident := 3;
     ConfirmEmailView.entries := [("type", "email")] |}.

End Scenarios.

(** * Properties *)

(** ** Allocation and the error library *)

Module ErrorLibFacts.

Import ErrorLib.

Lemma alloc_spec (h : heap) (o : jsobj) :
  h !! (alloc h o).1 = None /\ (alloc h o).2 = <[(alloc h o).1 := o]> h.
Proof.
  unfold alloc; simpl. split; [|reflexivity].
  apply not_elem_of_dom. apply is_fresh.
Qed.

Lemma getProp_insert_eq (h : heap) (l : loc) (o : jsobj) (k : string) :
  getProp (<[l := o]> h) (VRef l) k = default VUndefined (props o !! k).
Proof. unfold getProp. by rewrite lookup_insert_eq. Qed.

Lemma hasProp_insert_eq (h : heap) (l : loc) (o : jsobj) (k : string) :
  hasProp (<[l := o]> h) (VRef l) k = bool_decide (is_Some (props o !! k)).
Proof. unfold hasProp. by rewrite lookup_insert_eq. Qed.

(** A value that is an [AppError] is an object. *)
Lemma isAppError_ref (h : heap) (v : jsval) :
  isAppError h v = true -> exists l, v = VRef l /\ is_Some (h !! l).
Proof.
  unfold isAppError, hasProp. destruct v; try discriminate.
  intros H. exists l. split; [reflexivity|].
  destruct (h !! l); [eauto | discriminate].
Qed.

(** The object that [new Error(message)] allocates is not an [AppError]. *)
Lemma newError_spec (h : heap) (m : string) :
  h !! (newError h m).1 = None
  /\ (newError h m).2 = <[(newError h m).1 := JSObj true (literal [("message", VStr m)])]> h
  /\ isAppError (newError h m).2 (VRef (newError h m).1) = false
  /\ messageOf (newError h m).2 (VRef (newError h m).1) = m.
Proof.
  unfold newError.
  destruct (alloc_spec h (JSObj true (literal [("message", VStr m)]))) as [Hf Hh].
  split; [exact Hf|]. split; [exact Hh|].
  rewrite Hh. unfold isAppError, messageOf.
  rewrite !hasProp_insert_eq, getProp_insert_eq. simpl.
  split; reflexivity.
Qed.

Lemma handleClientError_new (h : heap) (err : jsval) (ctx : list (string * jsval)) :
  isAppError h err = false ->
  exists lc l,
    h !! lc = None /\ h !! l = None /\ l <> lc
    /\ handleClientError h err ctx
       = (VRef l,
          <[l := appErrorObj h err ctx lc]>
            (<[lc := JSObj false (literal (contextOf (messageOf h err) ctx))]> h)).
Proof.
  intros Hn. unfold handleClientError. rewrite Hn.
  set (o := JSObj false (literal (contextOf (messageOf h err) ctx))).
  destruct (alloc_spec h o) as [Hc Hh1].
  destruct (alloc h o) as [lc h1] eqn:E1.
  cbn [fst snd] in Hc, Hh1. subst h1.
  match goal with |- context [alloc ?hh ?oo] =>
    destruct (alloc_spec hh oo) as [Hl Hh2];
    destruct (alloc hh oo) as [l h2] eqn:E2 end.
  cbn [fst snd] in Hl, Hh2. subst h2.
  exists lc, l. split; [exact Hc|].
  assert (l <> lc) as Hne.
  { intros ->. rewrite lookup_insert_eq in Hl. discriminate. }
  split; [|split; [exact Hne|reflexivity]].
  rewrite lookup_insert_ne in Hl by congruence. exact Hl.
Qed.

(** Pass-through of the classifier as modelled. *)
Lemma handleClientError_passthrough (h : heap) (e : jsval) (ctx : list (string * jsval)) :
  isAppError h e = true -> handleClientError h e ctx = (e, h).
Proof. intros H. unfold handleClientError. by rewrite H. Qed.

End ErrorLibFacts.

(** ** The session store *)

Module UseAuthFacts.

Import UseAuth.

(** Names the two components that a call of the classifier returns. *)
Ltac name_handled :=
  repeat match goal with
  | |- context [let '(_, _) := ?c in _] =>
      let a := fresh "appError" in
      let h' := fresh "h'" in
      destruct c as [a h']
  end.

Section Store.

Variable isAppError : heap -> jsval -> bool.
Variable handleError : heap -> jsval -> list (string * jsval) -> jsval * heap.

Lemma coupled_finally (k : Hook) : coupled k -> coupled (checkSession_finally k).
Proof. unfold coupled, checkSession_finally. by destruct (isMounted k). Qed.

Lemma coupled_catch (h : heap) (k : Hook) (e : jsval) :
  coupled k -> coupled (checkSession_catch handleError h k e).2.
Proof.
  intros Hk. unfold checkSession_catch.
  destruct (isRefreshTokenError h e); name_handled; simpl;
    apply coupled_finally; destruct (isMounted k); done.
Qed.

Lemma coupled_commit (k : Hook) (s : option Session) :
  coupled k -> coupled (checkSession_commit k s).
Proof.
  intros Hk. unfold checkSession_commit. apply coupled_finally.
  destruct s; [destruct (isMounted k)|]; done.
Qed.

Lemma coupled_settle (op : AuthOp) (h : heap) (k : Hook) (r : outcome jsval) :
  coupled k -> coupled (settle isAppError handleError op h k r).2.
Proof.
  intros Hk.
  destruct op, r as [err|e]; simpl;
    try destruct (truthy err); try destruct (isAppError h err);
    name_handled; done.
Qed.

Lemma coupled_step (st : heap * Hook) (ev : Event) :
  coupled st.2 -> coupled (step isAppError handleError st ev).2.
Proof.
  destruct st as [h k]. simpl. intros Hk. destruct ev; simpl.
  - destruct (pending k); done.
  - done.
  - destruct (pending k); try done.
    destruct r as [s|e]; simpl; [|by apply coupled_catch].
    destruct (isMounted k); simpl; [|by apply coupled_finally].
    destruct s; simpl; [done|by apply coupled_commit].
  - destruct (pending k); try done.
    destruct r as [[u|]|e]; simpl;
      [by apply coupled_commit|done|by apply coupled_catch].
  - destruct (pending k); try done.
    destruct r as [[]|e]; simpl; [|by apply coupled_catch].
    apply coupled_finally. by destruct (isMounted k).
  - unfold onAuthStateChange. by destruct (isMounted k).
  - done.
  - pose proof (coupled_settle op h k r Hk) as H.
    destruct (settle isAppError handleError op h k r) as [[res h'] k']. exact H.
  - destruct r as [s|e]; simpl; name_handled; done.
  - done.
Qed.

Lemma reachable_coupled (st : heap * Hook) :
  reachable isAppError handleError st -> coupled st.2.
Proof.
  induction 1 as [h|st ev _ IH]; [reflexivity|by apply coupled_step].
Qed.

(** C5. In every reachable state of the session store, [session] is
    non-null if and only if [authUser] is non-null: every path that writes
    one writes the other from the same event. *)
Theorem session_user_coupling (st : heap * Hook) :
  reachable isAppError handleError st ->
  session st.2 <> None <-> authUser st.2 <> None.
Proof.
  intros Hr. apply reachable_coupled in Hr. unfold coupled, userOf in Hr.
  rewrite Hr. destruct (session st.2); simpl; split; congruence.
Qed.

(** C1. When the initial session check fails with a refresh-token failure,
    the error being recognised by the refresh-token phrases in its message,
    the store ends with [session = null], [authUser = null] and
    [error = null], and no error object is built.  The store is the state
    of the mounted hook: after the clean-up of the effect there is none
    to write to.  The failure may come from any of the three calls that
    the check awaits. *)
Theorem refresh_token_silence (h : heap) (k : Hook) (ev : Event) (e : jsval) :
  isMounted k = true ->
  rejects k ev e ->
  isRefreshTokenError h e = true ->
  session (step isAppError handleError (h, k) ev).2 = None
  /\ authUser (step isAppError handleError (h, k) ev).2 = None
  /\ error (step isAppError handleError (h, k) ev).2 = None
  /\ (step isAppError handleError (h, k) ev).1 = h.
Proof.
  intros Hm Hrej Hre. unfold rejects in Hrej.
  destruct (pending k) eqn:Hp; simpl in Hrej; try contradiction;
    destruct ev; simpl in Hrej; try contradiction;
    destruct r as [?|e']; simpl in Hrej; try contradiction; subst e';
    simpl; rewrite Hp; simpl;
    unfold checkSession_catch; rewrite Hre, Hm; simpl; rewrite Hm; done.
Qed.

(** When no call of the session check throws, the check writes the session
    in two places only: a fetched session whose user was found, and the
    sign-out of a session whose user was not. *)
Lemma checkSession_writes_session (h : heap) (k : Hook) (ev : Event) :
  match ev with
  | EGetSession (Resolved _) | EGetUser (Resolved _) | ESignedOut (Resolved _) => True
  | _ => False
  end ->
  session (step isAppError handleError (h, k) ev).2 <> session k ->
  (exists s u, pending k = AwaitGetUser s /\ ev = EGetUser (Resolved (Some u))
               /\ session (step isAppError handleError (h, k) ev).2 = Some s)
  \/ (exists s, pending k = AwaitSignOut s /\ ev = ESignedOut (Resolved tt)
               /\ session (step isAppError handleError (h, k) ev).2 = None).
Proof.
  intros Hev. destruct k as [u s l e m p c f].
  destruct ev; try contradiction; destruct r as [a|?]; try contradiction;
    simpl; destruct p; simpl; try congruence.
  - destruct m; simpl; [|congruence]. destruct a; simpl; congruence.
  - destruct a as [u'|]; simpl; [|congruence].
    destruct m; simpl; [|congruence]. intros _. left. eauto.
  - destruct a. destruct m; simpl; [|congruence]. intros _. right. eauto.
Qed.

(** C10, as the code has it.  When the initial session check resolves
    with no session, the [session] and [authUser] (and the [error]) of the
    store stay as they are.  When no call of the check throws, the check
    writes them in two places only: a fetched session whose user was
    found, and the sign-out of a session whose user was not.  A signed-out
    result clears them through the subscription of the mounted hook or
    through [refreshSession], which writes the session it fetched, and
    through nothing else. *)
Theorem null_session_leaves_state (h : heap) (k : Hook) (event : string)
    (ev : Event) :
  session (step isAppError handleError (h, k) (EGetSession (Resolved None))).2
    = session k
  /\ authUser (step isAppError handleError (h, k) (EGetSession (Resolved None))).2
    = authUser k
  /\ error (step isAppError handleError (h, k) (EGetSession (Resolved None))).2
    = error k
  /\ (UseAuthEvents.checkResolved ev = true ->
      session (step isAppError handleError (h, k) ev).2 <> session k
      \/ authUser (step isAppError handleError (h, k) ev).2 <> authUser k ->
      (exists s u, pending k = AwaitGetUser s /\ ev = EGetUser (Resolved (Some u))
                   /\ session (step isAppError handleError (h, k) ev).2 = Some s
                   /\ authUser (step isAppError handleError (h, k) ev).2
                      = Some (user s))
      \/ (exists s, pending k = AwaitSignOut s /\ ev = ESignedOut (Resolved tt)
                   /\ session (step isAppError handleError (h, k) ev).2 = None
                   /\ authUser (step isAppError handleError (h, k) ev).2 = None))
  /\ (UseAuthEvents.signedOutResult ev = true ->
      session (step isAppError handleError (h, k) ev).2 <> session k
      \/ authUser (step isAppError handleError (h, k) ev).2 <> authUser k ->
      session (step isAppError handleError (h, k) ev).2 = None
      /\ authUser (step isAppError handleError (h, k) ev).2 = None
      /\ ((exists event', ev = EAuthStateChange event' None /\ isMounted k = true)
          \/ ev = ERefreshSession (Resolved None)))
  /\ session (step isAppError handleError (h, k)
                (ERefreshSession (Resolved None))).2 = None
  /\ authUser (step isAppError handleError (h, k)
                 (ERefreshSession (Resolved None))).2 = None
  /\ session (onAuthStateChange k event None)
    = (if isMounted k then None else session k)
  /\ authUser (onAuthStateChange k event None)
    = (if isMounted k then None else authUser k).
Proof.
  unfold onAuthStateChange. destruct k as [u s l e m p c f].
  split; [simpl; destruct p, m; done|].
  split; [simpl; destruct p, m; done|].
  split; [simpl; destruct p, m; done|].
  split.
  { intros Hev.
    destruct ev; try discriminate; destruct r as [a|?]; try discriminate;
      simpl; destruct p; simpl; try (intros [?|?]; congruence).
    - destruct m; simpl; [|intros [?|?]; congruence].
      destruct a; simpl; intros [?|?]; congruence.
    - destruct a as [u'|]; simpl; [|intros [?|?]; congruence].
      destruct m; simpl; [|intros [?|?]; congruence].
      intros _. left. eauto 10.
    - destruct a. destruct m; simpl; [|intros [?|?]; congruence].
      intros _. right. eauto 10. }
  split.
  { intros Hev.
    destruct ev as [| |r|r|r|event' s'| | |r|]; try discriminate.
    - destruct r as [[a|]|?]; try discriminate.
      simpl. destruct p, m; simpl; intros [?|?]; congruence.
    - destruct s'; try discriminate.
      simpl. destruct m; simpl; [|intros [?|?]; congruence]. eauto 10.
    - destruct r as [[a|]|?]; try discriminate.
      simpl. eauto. }
  simpl. destruct m; done.
Qed.

(** C10, as the claim has it: a signed-out result that clears a signed-in
    store would have come from the subscription.  The one that
    [refreshSession] fetches has not. *)
Lemma null_session_leaves_state_counterexample :
  ~ (UseAuthEvents.signedOutResult (ERefreshSession (Resolved None)) = true ->
     session Samples.signedIn.2 = Some Samples.aliceSession ->
     session (step ErrorLib.isAppError ErrorLib.handleClientError
                Samples.signedIn (ERefreshSession (Resolved None))).2 = None ->
     exists event s, ERefreshSession (Resolved None) = EAuthStateChange event s).
Proof.
  intros H.
  destruct H as (event & s & Heq); [reflexivity..|discriminate Heq].
Qed.

(** C4, as the code has it. Each of the six operations clears the [error]
    of the store before its call and never writes it afterwards: the store
    holds no error when the operation is over.  A failure is handed to the
    caller classified: the returned error is what the classifier gives for
    the raw error and a context that names the operation and the hook, or,
    in [signIn], the error of the response itself when that is an
    [AppError] already.  Without a failure the operation returns no error
    and builds nothing. *)
Theorem auth_ops_return_failure (op : AuthOp) (h : heap) (k : Hook)
    (r : outcome jsval) :
  error (op_start k) = None
  /\ error (run isAppError handleError op h k r).2 = None
  /\ bool_decide (is_Some (run isAppError handleError op h k r).1.1) = failed r
  /\ if failed r
     then ((run isAppError handleError op h k r).1.1
             = Some (UseAuthEvents.rawError r)
           /\ (run isAppError handleError op h k r).1.2 = h
           /\ isAppError h (UseAuthEvents.rawError r) = true
           /\ exists email password,
                op = SignIn email password
                /\ r = Resolved (UseAuthEvents.rawError r))
          \/ (exists ctx,
                literal ctx !! "operation"
                  = Some (VStr (UseAuthEvents.operationName op))
                /\ literal ctx !! "hook" = Some (VStr "useAuth")
                /\ (run isAppError handleError op h k r).1.1
                   = Some (handleError h (UseAuthEvents.rawError r) ctx).1
                /\ (run isAppError handleError op h k r).1.2
                   = (handleError h (UseAuthEvents.rawError r) ctx).2)
     else (run isAppError handleError op h k r).1.1 = None
          /\ (run isAppError handleError op h k r).1.2 = h.
Proof.
  split; [reflexivity|]. unfold run.
  destruct op, r as [err|e]; simpl;
    try destruct (truthy err) eqn:Ht; try destruct (isAppError h err) eqn:Ha;
    simpl;
    try (split; [reflexivity|split; [reflexivity|split; reflexivity]]);
    try (split; [reflexivity|split; [reflexivity|]]; left; eauto 10);
    match goal with
    | |- context [handleError ?h' ?e' ?ctx] =>
        split; [|split];
          [ | | right; exists ctx];
          destruct (handleError h' e' ctx); simpl; repeat split; reflexivity
    end.
Qed.

(** C7. A response error that is already an [AppError] is returned by
    [signIn] as the very same object, and nothing is allocated; the
    classifier itself passes such a value through. *)
Theorem classification_idempotent (h : heap) (k : Hook)
    (email password : string) (e : jsval) (ctx : list (string * jsval)) :
  ErrorLib.isAppError h e = true ->
  signIn ErrorLib.isAppError handleError h k email password (Resolved e)
    = (Some e, h, setIsLoading false k)
  /\ ErrorLib.handleClientError h e ctx = (e, h).
Proof.
  intros He. split.
  - destruct (ErrorLibFacts.isAppError_ref h e He) as (l & -> & _).
    unfold signIn. simpl. by rewrite He.
  - by apply ErrorLibFacts.handleClientError_passthrough.
Qed.

End Store.

Lemma session_user_coupling_witness :
  reachable ErrorLib.isAppError ErrorLib.handleClientError Samples.signedIn
  /\ (session Samples.signedIn.2 <> None <-> authUser Samples.signedIn.2 <> None).
Proof.
  assert (reachable ErrorLib.isAppError ErrorLib.handleClientError
            Samples.signedIn) as Hr.
  { unfold Samples.signedIn. repeat apply reachable_step. apply reachable_initial. }
  split; [exact Hr|].
  exact (session_user_coupling ErrorLib.isAppError ErrorLib.handleClientError
           Samples.signedIn Hr).
Defined.

Lemma refresh_token_silence_witness :
  isMounted Samples.stale.2 = true
  /\ rejects Samples.stale.2 (EGetSession (Rejected (VRef 1%positive)))
       (VRef 1%positive)
  /\ isRefreshTokenError Samples.stale.1 (VRef 1%positive) = true
  /\ session Samples.stale.2 = Some Samples.aliceSession
  /\ is_Some (error Samples.stale.2)
  /\ session (step ErrorLib.isAppError ErrorLib.handleClientError
                (Samples.stale.1, Samples.stale.2)
                (EGetSession (Rejected (VRef 1%positive)))).2 = None
  /\ authUser (step ErrorLib.isAppError ErrorLib.handleClientError
                 (Samples.stale.1, Samples.stale.2)
                 (EGetSession (Rejected (VRef 1%positive)))).2 = None
  /\ error (step ErrorLib.isAppError ErrorLib.handleClientError
              (Samples.stale.1, Samples.stale.2)
              (EGetSession (Rejected (VRef 1%positive)))).2 = None
  /\ (step ErrorLib.isAppError ErrorLib.handleClientError
        (Samples.stale.1, Samples.stale.2)
        (EGetSession (Rejected (VRef 1%positive)))).1 = Samples.stale.1.
Proof.
  assert (isMounted Samples.stale.2 = true) as Hm by (vm_compute; reflexivity).
  assert (rejects Samples.stale.2 (EGetSession (Rejected (VRef 1%positive)))
            (VRef 1%positive)) as Hr by (vm_compute; reflexivity).
  assert (isRefreshTokenError Samples.stale.1 (VRef 1%positive) = true) as He
    by (vm_compute; reflexivity).
  split; [exact Hm|]. split; [exact Hr|]. split; [exact He|].
  split; [vm_compute; reflexivity|].
  split; [vm_compute; eexists; reflexivity|].
  exact (refresh_token_silence ErrorLib.isAppError ErrorLib.handleClientError
           Samples.stale.1 Samples.stale.2
           (EGetSession (Rejected (VRef 1%positive))) (VRef 1%positive)
           Hm Hr He).
Defined.

(** C4, as the claim has it: a sign-in that fails with wrong credentials,
    which is no refresh-token failure, would leave the [error] of the
    store populated.  It does not. *)
Lemma auth_ops_populate_error_counterexample :
  ~ (failed (Resolved (VRef 1%positive)) = true ->
     isRefreshTokenError Samples.credHeap (VRef 1%positive) = false ->
     error (run ErrorLib.isAppError ErrorLib.handleClientError
              (SignIn "user@test.com" "wrong") Samples.credHeap
              (mount initial) (Resolved (VRef 1%positive))).2 <> None).
Proof.
  intros H. apply H; vm_compute; reflexivity.
Qed.

Lemma classification_idempotent_witness :
  ErrorLib.isAppError Samples.appHeap (VRef 2%positive) = true
  /\ signIn ErrorLib.isAppError ErrorLib.handleClientError Samples.appHeap
       (mount initial) "user@test.com" "wrong" (Resolved (VRef 2%positive))
     = (Some (VRef 2%positive), Samples.appHeap, setIsLoading false (mount initial))
  /\ ErrorLib.handleClientError Samples.appHeap (VRef 2%positive)
       [("operation", VStr "signIn")]
     = (VRef 2%positive, Samples.appHeap).
Proof.
  assert (ErrorLib.isAppError Samples.appHeap (VRef 2%positive) = true) as He
    by (vm_compute; reflexivity).
  split; [exact He|].
  exact (classification_idempotent ErrorLib.handleClientError Samples.appHeap
           (mount initial) "user@test.com" "wrong" (VRef 2%positive)
           [("operation", VStr "signIn")] He).
Defined.

End UseAuthFacts.

(** ** Search parameters *)

Module URLSearchParamsFacts.

Import URLSearchParams.

Lemma get_delete_eq (name : string) (sp : t) : get name (delete name sp) = None.
Proof.
  induction sp as [|[k v] sp IH]; simpl; [reflexivity|].
  destruct (String.eqb k name) eqn:E; [exact IH|].
  simpl. by rewrite E.
Qed.

Lemma get_delete_ne (name other : string) (sp : t) :
  name <> other -> get name (delete other sp) = get name sp.
Proof.
  intros Hne. induction sp as [|[k v] sp IH]; simpl; [reflexivity|].
  destruct (String.eqb k other) eqn:E; simpl.
  - apply String.eqb_eq in E. subst k.
    destruct (String.eqb other name) eqn:E'; [|exact IH].
    apply String.eqb_eq in E'. congruence.
  - by rewrite IH.
Qed.

Lemma get_set_eq (name value : string) (sp : t) :
  get name (set name value sp) = Some value.
Proof.
  induction sp as [|[k v] sp IH]; simpl.
  - by rewrite String.eqb_refl.
  - destruct (String.eqb k name) eqn:E; simpl.
    + by rewrite String.eqb_refl.
    + by rewrite E.
Qed.

Lemma get_set_ne (name other value : string) (sp : t) :
  name <> other -> get name (set other value sp) = get name sp.
Proof.
  intros Hne.
  assert (String.eqb other name = false) as Hf.
  { apply String.eqb_neq. congruence. }
  induction sp as [|[k v] sp IH]; simpl.
  - by rewrite Hf.
  - destruct (String.eqb k other) eqn:E; simpl.
    + apply String.eqb_eq in E. subst k. rewrite Hf.
      by apply get_delete_ne.
    + by rewrite IH.
Qed.

(** After [set], one pair carries the name. *)
Lemma set_once (name value : string) (sp : t) :
  length (filter (fun kv => kv.1 = name) (set name value sp)) = 1.
Proof.
  assert (forall sp', filter (fun kv : string * string => kv.1 = name)
                        (delete name sp') = []) as Hd.
  { induction sp' as [|[k v] sp' IH]; cbn [delete]; [reflexivity|].
    destruct (String.eqb k name) eqn:E; [exact IH|].
    apply String.eqb_neq in E.
    rewrite filter_cons_False by (simpl; congruence). exact IH. }
  induction sp as [|[k v] sp IH]; cbn [set].
  - by rewrite filter_cons_True.
  - destruct (String.eqb k name) eqn:E.
    + rewrite filter_cons_True by reflexivity. simpl. by rewrite Hd.
    + apply String.eqb_neq in E.
      rewrite filter_cons_False by (simpl; congruence). exact IH.
Qed.

End URLSearchParamsFacts.

(** ** The adaptive form *)

Module AuthFormFacts.

Import AuthForm.

(** Every operation has its value of the [op] parameter, in any case. *)
Lemma newOperation_opValue (o : AuthOperationsEnum) :
  newOperation (Some (toLowerCase (opValue o))) = o.
Proof. by destruct o. Qed.

Lemma appErrorObj_code (h : heap) (err : jsval)
    (ctx : list (string * jsval)) (lc : loc) :
  props (ErrorLib.appErrorObj h err ctx lc) !! "code"
  = Some (VStr (ErrorLib.codeOf (ErrorLib.messageOf h err))).
Proof. reflexivity. Qed.

Lemma appErrorObj_context (h : heap) (err : jsval)
    (ctx : list (string * jsval)) (lc : loc) :
  props (ErrorLib.appErrorObj h err ctx lc) !! "context" = Some (VRef lc).
Proof. reflexivity. Qed.

Lemma appErrorObj_message (h : heap) (err : jsval)
    (ctx : list (string * jsval)) (lc : loc) :
  props (ErrorLib.appErrorObj h err ctx lc) !! "message"
  = Some (VStr (ErrorLib.messageOf h err)).
Proof. reflexivity. Qed.

(** What [handleError(new Error(message), ctx)] gives with the classifier
    as modelled: a new [AppError] with that message, the code of the
    message, and the context of the caller. *)
Lemma classify_new_error (h : heap) (m : string) (ctx : list (string * jsval)) :
  exists le h1 lc l h2,
    newError h m = (le, h1)
    /\ ErrorLib.handleClientError h1 (VRef le) ctx = (VRef l, h2)
    /\ getProp h2 (VRef l) "code" = VStr (ErrorLib.codeOf m)
    /\ getProp h2 (VRef l) "message" = VStr m
    /\ getProp h2 (VRef l) "context" = VRef lc
    /\ h2 !! lc = Some (JSObj false (literal (ErrorLib.contextOf m ctx))).
Proof.
  destruct (ErrorLibFacts.newError_spec h m) as (Hf & Hh1 & Hna & Hm).
  destruct (newError h m) as [le h1] eqn:E. cbn [fst snd] in Hf, Hh1, Hna, Hm.
  destruct (ErrorLibFacts.handleClientError_new h1 (VRef le) ctx Hna)
    as (lc & l & Hlc & Hl & Hne & Heq).
  exists le, h1, lc, l. eexists. split; [reflexivity|]. split; [exact Heq|].
  rewrite !ErrorLibFacts.getProp_insert_eq.
  rewrite appErrorObj_code, appErrorObj_message, appErrorObj_context, Hm. simpl.
  repeat split; try reflexivity.
  rewrite lookup_insert_ne by congruence. by rewrite lookup_insert_eq.
Qed.


(** C6. A change of the [op] parameter from the operation [A] of the form
    to another operation [B] leaves the form with the default values of
    [B], no error and no "email sent" flag, whatever it held. *)
Theorem operation_change_resets (f : Form) (A B : AuthOperationsEnum) :
  operation f = A ->
  newOperation (toLowerCase <$> URLSearchParams.get "op" (search (location f))) = B ->
  A <> B ->
  operationEffect f
  = {| operation := B; error := None; isLoading := isLoading f;
       isRedirecting := isRedirecting f; emailSent := false;
       values := authFormDefaults B; auth := auth f;
       location := location f; pushed := pushed f |}.
Proof.
  intros HA HB Hne. unfold operationEffect. rewrite HB, HA.
  destruct (decide (B = A)) as [->|_]; [congruence|reflexivity].
Qed.

Lemma operation_change_resets_witness :
  operation Samples.typedForm = REGISTER
  /\ REGISTER <> FORGOT_PASSWORD
  /\ operationEffect Samples.typedForm
     = {| operation := FORGOT_PASSWORD; error := None; isLoading := false;
          isRedirecting := false; emailSent := false;
          values := authFormDefaults FORGOT_PASSWORD;
          auth := auth Samples.typedForm;
          location := location Samples.typedForm; pushed := [] |}.
Proof.
  split; [reflexivity|]. split; [discriminate|].
  apply (operation_change_resets Samples.typedForm REGISTER FORGOT_PASSWORD).
  - reflexivity.
  - reflexivity.
  - discriminate.
Defined.

(** C2. A [REGISTER] submission that fails with a message saying that the
    email is registered already, or in use already, shows no error: the
    [op] parameter is rewritten to [login], and the operation of the form
    is [LOGIN] once the operation-change effect has run. *)
Theorem duplicate_registration_switches_to_login (h : heap) (f : Form)
    (data : gmap string jsval) (result : ActionResult) (svc : UseAuth.outcome jsval) :
  operation f = REGISTER ->
  success result = false ->
  alreadyRegistered (errorMessageOf h (aerror result) "Registration failed") = true ->
  error (handleFormSubmit ErrorLib.handleClientError h f data
           (UseAuth.Resolved result) svc).2 = None
  /\ URLSearchParams.get "op"
       (search (location (handleFormSubmit ErrorLib.handleClientError h f data
                            (UseAuth.Resolved result) svc).2)) = Some "login"
  /\ operation (operationEffect
       (handleFormSubmit ErrorLib.handleClientError h f data
          (UseAuth.Resolved result) svc).2) = LOGIN
  /\ error (operationEffect
       (handleFormSubmit ErrorLib.handleClientError h f data
          (UseAuth.Resolved result) svc).2) = None.
Proof.
  intros Hop Hs Ha. unfold handleFormSubmit. rewrite Hop, Hs, Ha. cbn [negb].
  destruct (classify_new_error h
              (errorMessageOf h (aerror result) "Registration failed")
              ([("operation", VStr "signup");
                ("code", VStr "AUTH/EMAIL_ALREADY_IN_USE")]
               ++ [("shouldSwitchToLogin", VBool true)]))
    as (le & h1 & lc & l & h2 & Hnew & Heq & _ & _ & Hctx & Hlc).
  rewrite Hnew, Heq, Hctx. unfold hasProp, getProp. rewrite Hlc.
  cbn [props app].
  replace (literal
             (ErrorLib.contextOf
                (errorMessageOf h (aerror result) "Registration failed")
                [("operation", VStr "signup");
                 ("code", VStr "AUTH/EMAIL_ALREADY_IN_USE");
                 ("shouldSwitchToLogin", VBool true)])
           !! "shouldSwitchToLogin") with (Some (VBool true))
    by (unfold ErrorLib.contextOf; by destruct (String.eqb _ _)).
  simpl. rewrite URLSearchParamsFacts.get_set_eq.
  split; [reflexivity|]. split; [reflexivity|].
  unfold operationEffect. simpl. rewrite URLSearchParamsFacts.get_set_eq. simpl.
  rewrite Hop. simpl. split; reflexivity.
Qed.

Lemma duplicate_registration_switches_to_login_witness :
  alreadyRegistered "User Already Registered" = true
  /\ error (handleFormSubmit ErrorLib.handleClientError ∅
              (Samples.freshForm REGISTER) (values Samples.typedForm)
              (UseAuth.Resolved
                 {| success := false; aerror := VStr "User Already Registered" |})
              (UseAuth.Resolved VNull)).2 = None
  /\ operation (operationEffect
       (handleFormSubmit ErrorLib.handleClientError ∅
          (Samples.freshForm REGISTER) (values Samples.typedForm)
          (UseAuth.Resolved
             {| success := false; aerror := VStr "User Already Registered" |})
          (UseAuth.Resolved VNull)).2) = LOGIN.
Proof.
  split; [reflexivity|].
  destruct (duplicate_registration_switches_to_login ∅
              (Samples.freshForm REGISTER) (values Samples.typedForm)
              {| success := false; aerror := VStr "User Already Registered" |}
              (UseAuth.Resolved VNull) eq_refl eq_refl eq_refl)
    as (He & _ & Ho & _).
  split; [exact He|exact Ho].
Defined.




End AuthFormFacts.

(** ** The confirmation view *)

Module ConfirmEmailViewFacts.

Import ConfirmEmailView.

Lemma effect_calls (sp : option SearchParams) (v : View) :
  verifyOtp (effect sp v)
  = if hasInvalidToken sp then verifyOtp v
    else (verifyOtp v ++ [(default "" (param sp "token_hash"),
                           default "" (param sp "type"))])%list.
Proof. unfold effect. by destruct (hasInvalidToken sp). Qed.

Lemma effect_deps (sp : option SearchParams) (v : View) :
  deps (effect sp v) = deps v.
Proof. unfold effect. by destruct (hasInvalidToken sp). Qed.

Lemma render_deps (sp : option SearchParams) (v : View) :
  deps (render sp v) = Some (ident <$> sp).
Proof.
  unfold render. destruct (decide _) as [E|_]; [exact E|].
  by rewrite effect_deps.
Qed.

(** C3, as the claim has it: the token [abc] would be exchanged once
    however often the view is rendered with it.  Rendered with a second
    [searchParams] object that carries the same token, the view exchanges
    it a second time. *)
Lemma recovery_exchange_once_counterexample :
  ~ (exchanges "abc"
       (render (Some Samples.linkAgain)
          (verified (UseAuth.Resolved None)
             (render (Some Samples.link) initial))) <= 1).
Proof. vm_compute. lia. Qed.

(** C3, as the code has it. A render runs the effect when the
    [searchParams] object is not the one the effect last ran with, and the
    effect makes one exchange when both parameters are present; a render
    with the same object, also after the exchange has settled and the
    state has changed, makes none. *)
Theorem recovery_exchange_once_per_effect (sp : option SearchParams) (v : View)
    (r : UseAuth.outcome (option string)) :
  verifyOtp (render sp v)
  = (if decide (deps v = Some (ident <$> sp)) then verifyOtp v
     else if hasInvalidToken sp then verifyOtp v
     else (verifyOtp v ++ [(default "" (param sp "token_hash"),
                            default "" (param sp "type"))])%list)
  /\ render sp (verified r (render sp v)) = verified r (render sp v).
Proof.
  split.
  - unfold render. destruct (decide _); [reflexivity|].
    by rewrite effect_calls.
  - pose proof (render_deps sp v) as Hd.
    unfold render at 1.
    assert (deps (verified r (render sp v)) = Some (ident <$> sp)) as Hd'.
    { destruct r as [[m|]|e]; exact Hd. }
    rewrite Hd'. destruct (decide _); [reflexivity|congruence].
Qed.

End ConfirmEmailViewFacts.

(** ** The verification route *)

Module ConfirmRouteFacts.

Import ConfirmRoute.

(** The target that a link names: its [next] parameter, or [/profile]
    when that is missing or empty. *)
Lemma orElse_next (request : URL) (next : string) :
  (URLSearchParams.get "next" (searchParams request) = Some next /\ next <> "")
  \/ ((URLSearchParams.get "next" (searchParams request) = None
       \/ URLSearchParams.get "next" (searchParams request) = Some "")
      /\ next = "/profile") ->
  orElse (URLSearchParams.get "next" (searchParams request)) "/profile" = next.
Proof.
  intros [[-> Hne]|[[-> | ->] ->]]; simpl; try reflexivity.
  apply String.eqb_neq in Hne. by rewrite Hne.
Qed.

(** C8, as the claim has it: a link with [token_hash] and [type] would be
    exchanged with the identity provider.  When its [next] target does
    not parse it is not: the handler throws first. *)
Lemma recovery_redirect_counterexample :
  ~ (URLSearchParams.get "token_hash" (searchParams Scenarios.unparsableRequest)
       = Some "abc" ->
     URLSearchParams.get "type" (searchParams Scenarios.unparsableRequest)
       = Some "recovery" ->
     exchange (GET parseURL Samples.withSecurityHeaders
                 Scenarios.unparsableRequest (UseAuth.Resolved tt)
                 (UseAuth.Resolved None))
       = Some ("recovery", "abc")
     /\ exists target,
          response (GET parseURL Samples.withSecurityHeaders
                      Scenarios.unparsableRequest (UseAuth.Resolved tt)
                      (UseAuth.Resolved None))
          = UseAuth.Resolved
              (Samples.withSecurityHeaders (NextResponse_redirect target))).
Proof.
  intros H. destruct (H eq_refl eq_refl) as [He _].
  vm_compute in He. discriminate.
Qed.

(** C8, as the code has it.  The route parses the target first: [next],
    or [/profile] when [next] is missing or empty, against the origin of
    the request.  When that does not parse, the handler throws what the
    parser throws and exchanges nothing.  When it parses, and the client
    of the identity provider is created, the route asks the provider for
    the exchange of [token_hash] and [type].  When the exchange succeeds
    the response redirects, with the security headers, to the parsed
    target: its origin, path and fragment, [verified=true] set once,
    [token_hash] and [type] removed, and every other parameter as it was.
    When the exchange fails, the response is what [handleApiError] gives
    for the error of the provider, the request and a context that names
    the operation and the type: a redirect to the error page on the
    origin of the request, with the code of the error. *)
Theorem recovery_redirect (newURL : string -> string -> UseAuth.outcome URL)
    (applySecurityHeaders : Response -> Response) (request : URL)
    (token_hash type next : string) (err : AuthError) :
  URLSearchParams.get "token_hash" (searchParams request) = Some token_hash ->
  token_hash <> "" ->
  URLSearchParams.get "type" (searchParams request) = Some type ->
  type <> "" ->
  (URLSearchParams.get "next" (searchParams request) = Some next /\ next <> "")
  \/ ((URLSearchParams.get "next" (searchParams request) = None
       \/ URLSearchParams.get "next" (searchParams request) = Some "")
      /\ next = "/profile") ->
  match newURL next (origin request) with
  | UseAuth.Rejected e =>
      forall createClient verifyOtp,
        GET newURL applySecurityHeaders request createClient verifyOtp
        = {| response := UseAuth.Rejected e; exchange := None |}
  | UseAuth.Resolved u =>
      exists target failure,
        exchange (GET newURL applySecurityHeaders request (UseAuth.Resolved tt)
                    (UseAuth.Resolved None))
          = Some (type, token_hash)
        /\ response (GET newURL applySecurityHeaders request (UseAuth.Resolved tt)
                       (UseAuth.Resolved None))
          = UseAuth.Resolved (applySecurityHeaders (NextResponse_redirect target))
        /\ origin target = origin u
        /\ pathname target = pathname u
        /\ hash target = hash u
        /\ URLSearchParams.get "verified" (searchParams target) = Some "true"
        /\ length (filter (fun kv => kv.1 = "verified") (searchParams target)) = 1
        /\ URLSearchParams.get "token_hash" (searchParams target) = None
        /\ URLSearchParams.get "type" (searchParams target) = None
        /\ (forall k, k <> "token_hash" -> k <> "type" -> k <> "verified" ->
              URLSearchParams.get k (searchParams target)
              = URLSearchParams.get k (searchParams u))
        /\ exchange (GET newURL applySecurityHeaders request (UseAuth.Resolved tt)
                       (UseAuth.Resolved (Some err)))
          = Some (type, token_hash)
        /\ response (GET newURL applySecurityHeaders request (UseAuth.Resolved tt)
                       (UseAuth.Resolved (Some err)))
          = UseAuth.Resolved
              (handleApiError err request
                 [("operation", VStr "email-verification");
                  ("tokenHashPresent", VBool true);
                  ("type", VStr type)])
        /\ handleApiError err request
             [("operation", VStr "email-verification");
              ("tokenHashPresent", VBool true);
              ("type", VStr type)]
          = NextResponse_redirect failure
        /\ origin failure = origin request
        /\ pathname failure = "/auth/auth-code-error"
        /\ URLSearchParams.get "code" (searchParams failure) = Some (code err)
        /\ (forall e verifyOtp,
              GET newURL applySecurityHeaders request (UseAuth.Rejected e) verifyOtp
              = {| response := UseAuth.Rejected e; exchange := None |})
  end.
Proof.
  intros Ht Hne Hty Hne' Hnext. apply orElse_next in Hnext.
  unfold GET. rewrite Hnext, Ht, Hty. simpl.
  assert (String.eqb token_hash "" = false) as -> by by apply String.eqb_neq.
  assert (String.eqb type "" = false) as -> by by apply String.eqb_neq.
  destruct (newURL next (origin request)) as [u|e]; [|reflexivity].
  simpl. eexists. eexists.
  split; [reflexivity|]. split; [reflexivity|]. simpl.
  split; [reflexivity|]. split; [reflexivity|]. split; [reflexivity|].
  split; [apply URLSearchParamsFacts.get_set_eq|].
  split; [apply URLSearchParamsFacts.set_once|].
  split.
  { rewrite URLSearchParamsFacts.get_set_ne by discriminate.
    rewrite URLSearchParamsFacts.get_delete_ne by discriminate.
    apply URLSearchParamsFacts.get_delete_eq. }
  split.
  { rewrite URLSearchParamsFacts.get_set_ne by discriminate.
    apply URLSearchParamsFacts.get_delete_eq. }
  split.
  { intros k Hk1 Hk2 Hk3.
    rewrite URLSearchParamsFacts.get_set_ne by exact Hk3.
    rewrite URLSearchParamsFacts.get_delete_ne by exact Hk2.
    by rewrite URLSearchParamsFacts.get_delete_ne by exact Hk1. }
  split; [reflexivity|]. split; [reflexivity|]. split; [reflexivity|].
  simpl. repeat split; reflexivity.
Qed.

(** A link without one of its two parameters, whose target parses: no
    exchange, and a redirect to the error page with the code
    [invalid_verification_link]. *)
Lemma missing_parameters_redirect
    (newURL : string -> string -> UseAuth.outcome URL)
    (applySecurityHeaders : Response -> Response) (request : URL) (u : URL)
    (createClient : UseAuth.outcome unit)
    (verifyOtp : UseAuth.outcome (option AuthError)) :
  ConfirmEmailView.present (URLSearchParams.get "token_hash" (searchParams request))
  && ConfirmEmailView.present (URLSearchParams.get "type" (searchParams request))
  = false ->
  newURL (orElse (URLSearchParams.get "next" (searchParams request)) "/profile")
         (origin request) = UseAuth.Resolved u ->
  GET newURL applySecurityHeaders request createClient verifyOtp
  = {| response := UseAuth.Resolved (applySecurityHeaders (NextResponse_redirect
         {| origin := origin request;
            pathname := "/auth/auth-code-error";
            searchParams := [("code", "invalid_verification_link")];
            hash := "" |}));
       exchange := None |}.
Proof. intros H Hu. unfold GET. by rewrite Hu, H. Qed.

(** A target that does not parse: the handler throws what the parser
    throws, whatever the parameters. *)
Lemma unparsable_target_thrown
    (newURL : string -> string -> UseAuth.outcome URL)
    (applySecurityHeaders : Response -> Response) (request : URL) (e : jsval)
    (createClient : UseAuth.outcome unit)
    (verifyOtp : UseAuth.outcome (option AuthError)) :
  newURL (orElse (URLSearchParams.get "next" (searchParams request)) "/profile")
         (origin request) = UseAuth.Rejected e ->
  GET newURL applySecurityHeaders request createClient verifyOtp
  = {| response := UseAuth.Rejected e; exchange := None |}.
Proof. intros Hu. unfold GET. by rewrite Hu. Qed.

(** An exception of the exchange leaves the handler as it came. *)
Lemma exchange_exception_rethrown
    (newURL : string -> string -> UseAuth.outcome URL)
    (applySecurityHeaders : Response -> Response) (request : URL) (u : URL)
    (e : jsval) :
  ConfirmEmailView.present (URLSearchParams.get "token_hash" (searchParams request))
  && ConfirmEmailView.present (URLSearchParams.get "type" (searchParams request))
  = true ->
  newURL (orElse (URLSearchParams.get "next" (searchParams request)) "/profile")
         (origin request) = UseAuth.Resolved u ->
  response (GET newURL applySecurityHeaders request (UseAuth.Resolved tt)
              (UseAuth.Rejected e))
  = UseAuth.Rejected e.
Proof. intros H Hu. unfold GET. by rewrite Hu, H. Qed.

(** The route on a link whose [next] target carries a [type] of its own. *)
Example recovery_redirect_settings :
  response (GET parseURL Samples.withSecurityHeaders
              Samples.confirmRequest (UseAuth.Resolved tt) (UseAuth.Resolved None))
  = UseAuth.Resolved
      {| redirect := Some {| origin := "https://app.test";
                             pathname := "/settings";
                             searchParams := [("tab", "security"); ("verified", "true")];
                             hash := "#password" |};
         headers := [("X-Frame-Options", "DENY")] |}.
Proof. reflexivity. Qed.

(** The route on a link without a [next] target. *)
Example recovery_redirect_profile :
  response (GET parseURL Samples.withSecurityHeaders
              {| origin := "https://app.test"; pathname := "/api/auth/confirm";
                 searchParams := [("token_hash", "abc"); ("type", "email")];
                 hash := "" |} (UseAuth.Resolved tt) (UseAuth.Resolved None))
  = UseAuth.Resolved
      {| redirect := Some {| origin := "https://app.test";
                             pathname := "/profile";
                             searchParams := [("verified", "true")];
                             hash := "" |};
         headers := [("X-Frame-Options", "DENY")] |}.
Proof. reflexivity. Qed.

Lemma recovery_redirect_witness :
  URLSearchParams.get "token_hash" (searchParams Samples.confirmRequest) = Some "abc"
  /\ URLSearchParams.get "type" (searchParams Samples.confirmRequest) = Some "recovery"
  /\ URLSearchParams.get "next" (searchParams Samples.confirmRequest)
     = Some "/settings?type=recovery&tab=security#password"
  /\ exists target failure,
    exchange (GET parseURL Samples.withSecurityHeaders
                Samples.confirmRequest (UseAuth.Resolved tt) (UseAuth.Resolved None))
      = Some ("recovery", "abc")
    /\ response (GET parseURL Samples.withSecurityHeaders
                   Samples.confirmRequest (UseAuth.Resolved tt)
                   (UseAuth.Resolved None))
      = UseAuth.Resolved (Samples.withSecurityHeaders (NextResponse_redirect target))
    /\ origin target = "https://app.test"
    /\ pathname target = "/settings"
    /\ hash target = "#password"
    /\ URLSearchParams.get "verified" (searchParams target) = Some "true"
    /\ length (filter (fun kv => kv.1 = "verified") (searchParams target)) = 1
    /\ URLSearchParams.get "token_hash" (searchParams target) = None
    /\ URLSearchParams.get "type" (searchParams target) = None
    /\ URLSearchParams.get "tab" (searchParams target) = Some "security"
    /\ response (GET parseURL Samples.withSecurityHeaders
                   Samples.confirmRequest (UseAuth.Resolved tt)
                   (UseAuth.Resolved
                      (Some {| message := "Token has expired or is invalid";
                               code := "otp_expired" |})))
      = UseAuth.Resolved (NextResponse_redirect failure)
    /\ pathname failure = "/auth/auth-code-error"
    /\ URLSearchParams.get "code" (searchParams failure) = Some "otp_expired".
Proof.
  assert (URLSearchParams.get "token_hash" (searchParams Samples.confirmRequest)
          = Some "abc") as Ht by reflexivity.
  assert (URLSearchParams.get "type" (searchParams Samples.confirmRequest)
          = Some "recovery") as Hty by reflexivity.
  assert (URLSearchParams.get "next" (searchParams Samples.confirmRequest)
          = Some "/settings?type=recovery&tab=security#password") as Hn
    by reflexivity.
  split; [exact Ht|]. split; [exact Hty|]. split; [exact Hn|].
  assert ("abc" <> "") as Hne by discriminate.
  assert ("recovery" <> "") as Hne' by discriminate.
  assert ("/settings?type=recovery&tab=security#password" <> "") as Hne''
    by discriminate.
  pose proof (recovery_redirect parseURL Samples.withSecurityHeaders
                Samples.confirmRequest "abc" "recovery"
                "/settings?type=recovery&tab=security#password"
                {| message := "Token has expired or is invalid";
                   code := "otp_expired" |}
                Ht Hne Hty Hne' (or_introl (conj Hn Hne''))) as H.
  assert (parseURL "/settings?type=recovery&tab=security#password"
            (origin Samples.confirmRequest)
          = UseAuth.Resolved
              (pathAbsoluteURL "/settings?type=recovery&tab=security#password"
                 (origin Samples.confirmRequest))) as Hu by reflexivity.
  rewrite Hu in H. cbv beta iota in H.
  destruct H as (target & failure & H1 & H2 & H3 & H4 & H5 & H6 & H7 & H8 & H9
                 & H10 & _ & H12 & H13 & _ & H15 & H16 & _).
  exists target, failure.
  split; [exact H1|]. split; [exact H2|]. split; [exact H3|].
  split; [exact H4|]. split; [exact H5|]. split; [exact H6|].
  split; [exact H7|]. split; [exact H8|]. split; [exact H9|].
  split; [rewrite H10 by discriminate; reflexivity|].
  split; [rewrite H12, H13; reflexivity|].
  split; [exact H15|exact H16].
Defined.

End ConfirmRouteFacts.

(** ** More on the session store *)

Module UseAuthMoreFacts.

Import UseAuth UseAuthQueries.

Section Store.

Variable isAppError : heap -> jsval -> bool.
Variable handleError : heap -> jsval -> list (string * jsval) -> jsval * heap.

(** X1. None of the six auth operations writes the session or the user:
    whatever the call to the identity source gives, the operation leaves
    [session], [authUser], the progress of the session check and the
    cookies as they were, and ends with the loading flag cleared. *)
Theorem auth_ops_frame (op : AuthOp) (h : heap) (k : Hook) (r : outcome jsval) :
  session (run isAppError handleError op h k r).2 = session k
  /\ authUser (run isAppError handleError op h k r).2 = authUser k
  /\ isLoading (run isAppError handleError op h k r).2 = false
  /\ pending (run isAppError handleError op h k r).2 = pending k
  /\ isMounted (run isAppError handleError op h k r).2 = isMounted k
  /\ cookie (run isAppError handleError op h k r).2 = cookie k
  /\ forcedSignOut (run isAppError handleError op h k r).2 = forcedSignOut k.
Proof.
  unfold run.
  destruct op, r as [err|e]; simpl;
    try destruct (truthy err); try destruct (isAppError h err);
    UseAuthFacts.name_handled; simpl; done.
Qed.

(** X2. After the clean-up of the effect, neither a call that the session
    check awaited nor an event of the subscription changes the four state
    cells of the hook. *)
Theorem unmounted_effect_writes_nothing (h : heap) (k : Hook) (ev : Event) :
  isMounted k = false ->
  ofEffect ev = true ->
  authUser (step isAppError handleError (h, k) ev).2 = authUser k
  /\ session (step isAppError handleError (h, k) ev).2 = session k
  /\ isLoading (step isAppError handleError (h, k) ev).2 = isLoading k
  /\ error (step isAppError handleError (h, k) ev).2 = error k
  /\ isMounted (step isAppError handleError (h, k) ev).2 = false.
Proof.
  intros Hm Hev. destruct k as [u s l e m p c f]. simpl in Hm. subst m.
  destruct ev; try discriminate; simpl.
  - destruct p; try done. destruct r as [a|x]; simpl; [done|].
    unfold checkSession_catch. simpl.
    destruct (isRefreshTokenError h x); UseAuthFacts.name_handled; done.
  - destruct p; try done. destruct r as [[a|]|x]; simpl; try done.
    unfold checkSession_catch. simpl.
    destruct (isRefreshTokenError h x); UseAuthFacts.name_handled; done.
  - destruct p; try done. destruct r as [a|x]; simpl; [done|].
    unfold checkSession_catch. simpl.
    destruct (isRefreshTokenError h x); UseAuthFacts.name_handled; done.
  - done.
Qed.

(** X3. A failure of the session check that is no refresh-token failure
    is classified with the context of the check and shown: the [error] of
    the mounted store is the classified error, the session and the user
    stay as they were, and the loading flag is cleared. *)
Theorem check_failure_is_surfaced (h : heap) (k : Hook) (ev : Event) (e : jsval) :
  isMounted k = true ->
  rejects k ev e ->
  isRefreshTokenError h e = false ->
  error (step isAppError handleError (h, k) ev).2
    = Some (handleError h e checkSessionContext).1
  /\ (step isAppError handleError (h, k) ev).1
    = (handleError h e checkSessionContext).2
  /\ session (step isAppError handleError (h, k) ev).2 = session k
  /\ authUser (step isAppError handleError (h, k) ev).2 = authUser k
  /\ isLoading (step isAppError handleError (h, k) ev).2 = false
  /\ pending (step isAppError handleError (h, k) ev).2 = Settled.
Proof.
  intros Hm Hrej Hre. unfold rejects in Hrej. unfold checkSessionContext.
  destruct (pending k) eqn:Hp; simpl in Hrej; try contradiction;
    destruct ev; simpl in Hrej; try contradiction;
    destruct r as [?|e']; simpl in Hrej; try contradiction; subst e';
    simpl; rewrite Hp; simpl;
    unfold checkSession_catch; rewrite Hre;
    destruct (handleError h e _) as [appError h'];
    simpl; rewrite Hm; simpl; rewrite Hm; done.
Qed.

(** X4. When the user of a fetched session is not found, the check asks
    for a sign-out with the reason [USER_NOT_FOUND] once, and when that
    has settled it leaves the [signout-reason] cookie, whether the hook is
    still mounted or not; the mounted hook also clears session and user
    and ends loading. *)
Theorem user_not_found_signs_out (h : heap) (k : Hook) (s : Session) :
  pending k = AwaitGetUser s ->
  forcedSignOut (step isAppError handleError
                   (step isAppError handleError (h, k) (EGetUser (Resolved None)))
                   (ESignedOut (Resolved tt))).2
    = (forcedSignOut k ++ ["USER_NOT_FOUND"])%list
  /\ cookie (step isAppError handleError
               (step isAppError handleError (h, k) (EGetUser (Resolved None)))
               (ESignedOut (Resolved tt))).2
    = (cookie k ++ [signOutReasonCookie])%list
  /\ pending (step isAppError handleError
                (step isAppError handleError (h, k) (EGetUser (Resolved None)))
                (ESignedOut (Resolved tt))).2 = Settled
  /\ session (step isAppError handleError
                (step isAppError handleError (h, k) (EGetUser (Resolved None)))
                (ESignedOut (Resolved tt))).2
    = (if isMounted k then None else session k)
  /\ authUser (step isAppError handleError
                 (step isAppError handleError (h, k) (EGetUser (Resolved None)))
                 (ESignedOut (Resolved tt))).2
    = (if isMounted k then None else authUser k)
  /\ isLoading (step isAppError handleError
                  (step isAppError handleError (h, k) (EGetUser (Resolved None)))
                  (ESignedOut (Resolved tt))).2
    = (if isMounted k then false else isLoading k).
Proof.
  intros Hp. destruct k as [u s0 l e m p c f]. simpl in Hp. subst p.
  simpl. destruct m; done.
Qed.

(** X5. The session check started by the mount settles after at most
    three awaited calls, whatever each of them gives, and the loading
    flag is cleared when it has. *)
Theorem check_session_settles (h : heap) (k : Hook)
    (r1 : outcome (option Session)) (r2 : outcome (option AuthUser))
    (r3 : outcome unit) :
  pending k = Idle ->
  pending (step isAppError handleError
             (step isAppError handleError
                (step isAppError handleError
                   (step isAppError handleError (h, k) EMount)
                   (EGetSession r1))
                (EGetUser r2))
             (ESignedOut r3)).2 = Settled
  /\ isLoading (step isAppError handleError
                  (step isAppError handleError
                     (step isAppError handleError
                        (step isAppError handleError (h, k) EMount)
                        (EGetSession r1))
                     (EGetUser r2))
                  (ESignedOut r3)).2 = false.
Proof.
  intros Hp. destruct k as [u s l e m p c f]. simpl in Hp. subst p.
  cbn [step pending mount checkSession_start setMounted setIsLoading setPending].
  destruct r1 as [[s1|]|e1]; simpl.
  - destruct r2 as [[u2|]|e2]; simpl.
    + destruct r3; done.
    + destruct r3 as [[]|e3]; simpl; [done|].
      unfold checkSession_catch. simpl.
      destruct (isRefreshTokenError h e3); UseAuthFacts.name_handled; done.
    + unfold checkSession_catch. simpl.
      destruct (isRefreshTokenError h e2); UseAuthFacts.name_handled;
        simpl; destruct r3; done.
  - destruct r2, r3; done.
  - unfold checkSession_catch. simpl.
    destruct (isRefreshTokenError h e1); UseAuthFacts.name_handled;
      simpl; destruct r2, r3; done.
Qed.


(** X7. The session check does not yield to the subscription: when an
    event of the subscription arrives while the check awaits [getUser],
    the session that the check fetched before replaces the one of the
    event as soon as [getUser] resolves with a user. *)
Theorem check_overwrites_subscription (h : heap) (k : Hook) (s : Session)
    (event : string) (s' : option Session) (u : AuthUser) :
  isMounted k = true ->
  pending k = AwaitGetUser s ->
  session (step isAppError handleError (h, k) (EAuthStateChange event s')).2 = s'
  /\ session (step isAppError handleError
                (step isAppError handleError (h, k) (EAuthStateChange event s'))
                (EGetUser (Resolved (Some u)))).2 = Some s
  /\ authUser (step isAppError handleError
                 (step isAppError handleError (h, k) (EAuthStateChange event s'))
                 (EGetUser (Resolved (Some u)))).2 = Some (user s).
Proof.
  intros Hm Hp. destruct k as [u0 s0 l e m p c f]. simpl in Hm, Hp. subst m p.
  done.
Qed.

(** X8. In every reachable state, [isCurrentUser] holds of an identifier
    exactly when the store has a session whose user has that identifier;
    it holds of none when the store is signed out. *)
Theorem is_current_user_of_session (st : heap * Hook) (userId : string) :
  reachable isAppError handleError st ->
  isCurrentUser st.2 userId = true
  <-> exists s, session st.2 = Some s /\ id (user s) = userId.
Proof.
  intros Hr. apply UseAuthFacts.reachable_coupled in Hr.
  unfold coupled, userOf in Hr. unfold isCurrentUser. rewrite Hr.
  destruct (session st.2) as [s|]; simpl.
  - rewrite String.eqb_eq. split; [eauto|]. by intros (s' & [= <-] & H).
  - split; [discriminate|]. by intros (s' & [=] & _).
Qed.

End Store.

(** X9. The three kinds that the store tells of its error exclude each
    other. *)
Theorem error_kinds_exclusive (h : heap) (k : Hook) :
  (isAuthError h k && isValidationError h k = false)
  /\ (isAuthError h k && isNetworkError h k = false)
  /\ (isValidationError h k && isNetworkError h k = false).
Proof.
  unfold isAuthError, isValidationError, isNetworkError, codeStartsWith.
  destruct (error k) as [e|]; [|done].
  destruct (getProp h e "code") as [| |b|n|c|l]; try done.
  destruct c as [|a c]; [done|].
  destruct a as [[] [] [] [] [] [] [] []]; simpl;
    rewrite ?andb_false_r; done.
Qed.

Lemma unmounted_effect_writes_nothing_witness :
  isMounted Scenarios.unmounted.2 = false
  /\ ofEffect (EGetSession (Resolved (Some Samples.aliceSession))) = true
  /\ authUser (step ErrorLib.isAppError ErrorLib.handleClientError
                 (Scenarios.unmounted.1, Scenarios.unmounted.2)
                 (EGetSession (Resolved (Some Samples.aliceSession)))).2
     = authUser Scenarios.unmounted.2
  /\ session (step ErrorLib.isAppError ErrorLib.handleClientError
                (Scenarios.unmounted.1, Scenarios.unmounted.2)
                (EGetSession (Resolved (Some Samples.aliceSession)))).2
     = session Scenarios.unmounted.2
  /\ isLoading (step ErrorLib.isAppError ErrorLib.handleClientError
                  (Scenarios.unmounted.1, Scenarios.unmounted.2)
                  (EGetSession (Resolved (Some Samples.aliceSession)))).2
     = isLoading Scenarios.unmounted.2
  /\ error (step ErrorLib.isAppError ErrorLib.handleClientError
              (Scenarios.unmounted.1, Scenarios.unmounted.2)
              (EGetSession (Resolved (Some Samples.aliceSession)))).2
     = error Scenarios.unmounted.2
  /\ isMounted (step ErrorLib.isAppError ErrorLib.handleClientError
                  (Scenarios.unmounted.1, Scenarios.unmounted.2)
                  (EGetSession (Resolved (Some Samples.aliceSession)))).2
     = false.
Proof.
  assert (isMounted Scenarios.unmounted.2 = false) as Hm
    by (vm_compute; reflexivity).
  assert (ofEffect (EGetSession (Resolved (Some Samples.aliceSession))) = true)
    as Hev by reflexivity.
  split; [exact Hm|]. split; [exact Hev|].
  exact (unmounted_effect_writes_nothing ErrorLib.isAppError
           ErrorLib.handleClientError Scenarios.unmounted.1
           Scenarios.unmounted.2
           (EGetSession (Resolved (Some Samples.aliceSession))) Hm Hev).
Defined.

Lemma check_failure_is_surfaced_witness :
  isMounted Samples.stale.2 = true
  /\ rejects Samples.stale.2 (EGetSession (Rejected (VStr "Failed to fetch")))
       (VStr "Failed to fetch")
  /\ isRefreshTokenError Samples.stale.1 (VStr "Failed to fetch") = false
  /\ error (step ErrorLib.isAppError ErrorLib.handleClientError
              (Samples.stale.1, Samples.stale.2)
              (EGetSession (Rejected (VStr "Failed to fetch")))).2
     = Some (ErrorLib.handleClientError Samples.stale.1
               (VStr "Failed to fetch") checkSessionContext).1
  /\ session (step ErrorLib.isAppError ErrorLib.handleClientError
                (Samples.stale.1, Samples.stale.2)
                (EGetSession (Rejected (VStr "Failed to fetch")))).2
     = Some Samples.aliceSession.
Proof.
  assert (isMounted Samples.stale.2 = true) as Hm by (vm_compute; reflexivity).
  assert (rejects Samples.stale.2
            (EGetSession (Rejected (VStr "Failed to fetch")))
            (VStr "Failed to fetch")) as Hr by (vm_compute; reflexivity).
  assert (isRefreshTokenError Samples.stale.1 (VStr "Failed to fetch") = false)
    as He by (vm_compute; reflexivity).
  split; [exact Hm|]. split; [exact Hr|]. split; [exact He|].
  destruct (check_failure_is_surfaced ErrorLib.isAppError
              ErrorLib.handleClientError Samples.stale.1 Samples.stale.2
              (EGetSession (Rejected (VStr "Failed to fetch")))
              (VStr "Failed to fetch") Hm Hr He) as (H1 & _ & H3 & _).
  split; [exact H1|]. rewrite H3. vm_compute. reflexivity.
Defined.

Lemma user_not_found_signs_out_witness :
  pending Scenarios.awaitingUser.2 = AwaitGetUser Samples.aliceSession
  /\ forcedSignOut
       (step ErrorLib.isAppError ErrorLib.handleClientError
          (step ErrorLib.isAppError ErrorLib.handleClientError
             (Scenarios.awaitingUser.1, Scenarios.awaitingUser.2)
             (EGetUser (Resolved None)))
          (ESignedOut (Resolved tt))).2 = ["USER_NOT_FOUND"]
  /\ cookie
       (step ErrorLib.isAppError ErrorLib.handleClientError
          (step ErrorLib.isAppError ErrorLib.handleClientError
             (Scenarios.awaitingUser.1, Scenarios.awaitingUser.2)
             (EGetUser (Resolved None)))
          (ESignedOut (Resolved tt))).2 = [signOutReasonCookie].
Proof.
  assert (pending Scenarios.awaitingUser.2 = AwaitGetUser Samples.aliceSession)
    as Hp by (vm_compute; reflexivity).
  split; [exact Hp|].
  destruct (user_not_found_signs_out ErrorLib.isAppError
              ErrorLib.handleClientError Scenarios.awaitingUser.1
              Scenarios.awaitingUser.2 Samples.aliceSession Hp)
    as (H1 & H2 & _).
  split; [exact H1|exact H2].
Defined.

Lemma check_session_settles_witness :
  pending initial = Idle
  /\ pending (step ErrorLib.isAppError ErrorLib.handleClientError
                (step ErrorLib.isAppError ErrorLib.handleClientError
                   (step ErrorLib.isAppError ErrorLib.handleClientError
                      (step ErrorLib.isAppError ErrorLib.handleClientError
                         (Samples.staleHeap, initial) EMount)
                      (EGetSession (Resolved (Some Samples.aliceSession))))
                   (EGetUser (Resolved None)))
                (ESignedOut (Rejected (VRef 1%positive)))).2 = Settled
  /\ isLoading (step ErrorLib.isAppError ErrorLib.handleClientError
                  (step ErrorLib.isAppError ErrorLib.handleClientError
                     (step ErrorLib.isAppError ErrorLib.handleClientError
                        (step ErrorLib.isAppError ErrorLib.handleClientError
                           (Samples.staleHeap, initial) EMount)
                        (EGetSession (Resolved (Some Samples.aliceSession))))
                     (EGetUser (Resolved None)))
                  (ESignedOut (Rejected (VRef 1%positive)))).2 = false.
Proof.
  assert (pending initial = Idle) as Hp by reflexivity.
  split; [exact Hp|].
  exact (check_session_settles ErrorLib.isAppError ErrorLib.handleClientError
           Samples.staleHeap initial
           (Resolved (Some Samples.aliceSession)) (Resolved None)
           (Rejected (VRef 1%positive)) Hp).
Defined.

Lemma check_overwrites_subscription_witness :
  isMounted Scenarios.awaitingUser.2 = true
  /\ pending Scenarios.awaitingUser.2 = AwaitGetUser Samples.aliceSession
  /\ session (step ErrorLib.isAppError ErrorLib.handleClientError
                (Scenarios.awaitingUser.1, Scenarios.awaitingUser.2)
                (EAuthStateChange "SIGNED_OUT" None)).2 = None
  /\ session (step ErrorLib.isAppError ErrorLib.handleClientError
                (step ErrorLib.isAppError ErrorLib.handleClientError
                   (Scenarios.awaitingUser.1, Scenarios.awaitingUser.2)
                   (EAuthStateChange "SIGNED_OUT" None))
                (EGetUser (Resolved (Some Samples.alice)))).2
     = Some Samples.aliceSession
  /\ authUser (step ErrorLib.isAppError ErrorLib.handleClientError
                 (step ErrorLib.isAppError ErrorLib.handleClientError
                    (Scenarios.awaitingUser.1, Scenarios.awaitingUser.2)
                    (EAuthStateChange "SIGNED_OUT" None))
                 (EGetUser (Resolved (Some Samples.alice)))).2
     = Some (user Samples.aliceSession).
Proof.
  assert (isMounted Scenarios.awaitingUser.2 = true) as Hm
    by (vm_compute; reflexivity).
  assert (pending Scenarios.awaitingUser.2 = AwaitGetUser Samples.aliceSession)
    as Hp by (vm_compute; reflexivity).
  split; [exact Hm|]. split; [exact Hp|].
  exact (check_overwrites_subscription ErrorLib.isAppError
           ErrorLib.handleClientError Scenarios.awaitingUser.1
           Scenarios.awaitingUser.2 Samples.aliceSession "SIGNED_OUT" None
           Samples.alice Hm Hp).
Defined.

Lemma is_current_user_of_session_witness :
  reachable ErrorLib.isAppError ErrorLib.handleClientError Samples.signedIn
  /\ (isCurrentUser Samples.signedIn.2 "7f3c" = true
      <-> exists s, session Samples.signedIn.2 = Some s /\ id (user s) = "7f3c").
Proof.
  assert (reachable ErrorLib.isAppError ErrorLib.handleClientError
            Samples.signedIn) as Hr.
  { unfold Samples.signedIn. repeat apply reachable_step. apply reachable_initial. }
  split; [exact Hr|].
  exact (is_current_user_of_session ErrorLib.isAppError
           ErrorLib.handleClientError Samples.signedIn "7f3c" Hr).
Defined.

End UseAuthMoreFacts.

(** ** Splitting strings *)

Module JSStringFacts.

Import JSString.

Lemma prefix_head_ne (c a : ascii) (sep s : string) :
  Ascii.eqb a c = false -> String.prefix (String c sep) (String a s) = false.
Proof.
  intros H. simpl. destruct (ascii_dec c a) as [->|_]; [|reflexivity].
  by rewrite Ascii.eqb_refl in H.
Qed.

(** A string without the first character of the separator is one piece. *)
Lemma split_absent (c : ascii) (sep s : string) :
  mentions c s = false -> split (String c sep) s = [s].
Proof.
  unfold split. induction s as [|a s IH]; [reflexivity|].
  cbn [mentions]. intros H. apply orb_false_iff in H as [Ha Hs].
  cbn [splitFrom]. rewrite (prefix_head_ne c a sep s Ha).
  by rewrite (IH Hs).
Qed.

(** A piece without the separating character, the character, and the
    rest. *)
Lemma split_at (c : ascii) (r rest : string) :
  mentions c r = false ->
  split (String c "") (r ++ String c rest) = r :: split (String c "") rest.
Proof.
  unfold split. induction r as [|a r IH].
  - intros _. change ("" ++ String c rest) with (String c rest).
    cbn [splitFrom String.prefix].
    destruct (ascii_dec c c) as [_|N]; [|by destruct N].
    by destruct rest.
  - cbn [mentions]. intros H. apply orb_false_iff in H as [Ha Hr].
    change (String a r ++ String c rest) with (String a (r ++ String c rest)).
    cbn [splitFrom]. rewrite (prefix_head_ne c a "" _ Ha).
    by rewrite (IH Hr).
Qed.

(** A piece without semicolon, the separator, and the rest. *)
Lemma split_row (r rest : string) :
  mentions ";" r = false ->
  split "; " (r ++ "; " ++ rest) = r :: split "; " rest.
Proof.
  unfold split. induction r as [|a r IH]; [intros _; by destruct rest|].
  cbn [mentions]. intros H. apply orb_false_iff in H as [Ha Hr].
  change (String a r ++ "; " ++ rest) with (String a (r ++ "; " ++ rest)).
  cbn [splitFrom]. rewrite (prefix_head_ne ";" a " " _ Ha).
  by rewrite (IH Hr).
Qed.

(** Splitting undoes joining, for pieces without semicolon. *)
Lemma split_concat (rows : list string) :
  Forall (fun r => mentions ";" r = false) rows ->
  split "; " (String.concat "; " rows) = if rows is [] then [""] else rows.
Proof.
  induction 1 as [|r rows Hr _ IH]; [reflexivity|].
  destruct rows as [|r' rows].
  - simpl. by apply split_absent.
  - change (String.concat "; " (r :: r' :: rows))
      with (r ++ "; " ++ String.concat "; " (r' :: rows)).
    rewrite split_row by exact Hr. by rewrite IH.
Qed.

End JSStringFacts.

(** ** More on the adaptive form *)

Module AuthFormMoreFacts.

Import AuthForm AuthFormPage.

Lemma delete_set_op (name value : string) (sp : URLSearchParams.t) :
  URLSearchParams.delete name (URLSearchParams.set name value sp)
  = URLSearchParams.delete name sp.
Proof.
  assert (forall sp', URLSearchParams.delete name (URLSearchParams.delete name sp')
                      = URLSearchParams.delete name sp') as Hdd.
  { induction sp' as [|[k v] sp' IH]; simpl; [reflexivity|].
    destruct (String.eqb k name) eqn:E; [exact IH|].
    simpl. by rewrite E, IH. }
  induction sp as [|[k v] sp IH]; simpl.
  - by rewrite String.eqb_refl.
  - destruct (String.eqb k name) eqn:E; simpl.
    + by rewrite String.eqb_refl, Hdd.
    + by rewrite E, IH.
Qed.

Lemma effect_after_change (o : AuthOperationsEnum) (f : Form) :
  newOperation (toLowerCase <$>
    URLSearchParams.get "op" (search (location (handleOperationChange o f)))) = o.
Proof.
  unfold handleOperationChange. simpl.
  rewrite URLSearchParamsFacts.get_set_eq. by destruct o.
Qed.

Lemma operationEffect_after_change (o : AuthOperationsEnum) (f : Form) :
  operationEffect (handleOperationChange o f)
  = if decide (o = operation f) then handleOperationChange o f
    else setEmailSent false
           (setError None
              (reset (authFormDefaults o)
                 (setOperation o (handleOperationChange o f)))).
Proof.
  unfold operationEffect. cbv zeta. rewrite effect_after_change. reflexivity.
Qed.

(** The effect has nothing to do after it has run. *)
Lemma operationEffect_idempotent (f : Form) :
  operationEffect (operationEffect f) = operationEffect f.
Proof.
  unfold operationEffect. cbv zeta.
  destruct (decide (_ = operation f)) as [E|E].
  - by rewrite decide_True by exact E.
  - simpl. by rewrite decide_True by reflexivity.
Qed.

(** X10. Switching goes through the URL and comes back: after
    [handleOperationChange] to an operation, the operation-change effect
    makes it the operation of the form, with its default values unless it
    was the operation already; the switch keeps the path, the fragment and
    every other parameter of the URL. *)
Theorem operation_change_round_trip (o : AuthOperationsEnum) (f : Form) :
  operation (operationEffect (handleOperationChange o f)) = o
  /\ values (operationEffect (handleOperationChange o f))
     = (if decide (o = operation f) then values f else authFormDefaults o)
  /\ pathname (location (handleOperationChange o f)) = pathname (location f)
  /\ hash (location (handleOperationChange o f)) = hash (location f)
  /\ URLSearchParams.delete "op" (search (location (handleOperationChange o f)))
     = URLSearchParams.delete "op" (search (location f)).
Proof.
  rewrite operationEffect_after_change.
  split; [|split; [|split; [reflexivity|split; [reflexivity|]]]].
  - destruct (decide (o = operation f)) as [->|]; reflexivity.
  - destruct (decide (o = operation f)); reflexivity.
  - apply delete_set_op.
Qed.

(** X11. Only the value of an operation selects it: a missing [op]
    parameter and every value that is not one of the five give [LOGIN]. *)
Theorem unknown_operation_is_login (op : option string) :
  newOperation op = LOGIN \/ op = Some (opValue (newOperation op)).
Proof.
  destruct op as [s|]; [|by left]. unfold newOperation.
  repeat match goal with
  | |- context [String.eqb s ?v] =>
      destruct (String.eqb s v) eqn:?;
      [match goal with
       | H : String.eqb s _ = true |- _ => apply String.eqb_eq in H; subst s
       end; right; reflexivity|]
  end.
  by left.
Qed.

Section Submit.

Variable handleError : heap -> jsval -> list (string * jsval) -> jsval * heap.

Ltac name_results :=
  repeat match goal with
  | |- context [let '(_, _) := ?c in _] =>
      let a := fresh "x" in
      let b := fresh "y" in
      destruct c as [a b]
  end.

(** X12. A submission never leaves the form loading, never changes the
    operation or the values of the form, and navigates only when it has
    succeeded: either nothing was pushed to the router, or one target was,
    with no error on display and the form marked as redirecting. *)
Theorem submit_is_safe (h : heap) (f : Form) (data : gmap string jsval)
    (action : UseAuth.outcome ActionResult) (svc : UseAuth.outcome jsval) :
  isLoading (handleFormSubmit handleError h f data action svc).2 = false
  /\ operation (handleFormSubmit handleError h f data action svc).2 = operation f
  /\ values (handleFormSubmit handleError h f data action svc).2 = values f
  /\ (pushed (handleFormSubmit handleError h f data action svc).2 = pushed f
      \/ (error (handleFormSubmit handleError h f data action svc).2 = None
          /\ isRedirecting (handleFormSubmit handleError h f data action svc).2 = true
          /\ exists target,
               pushed (handleFormSubmit handleError h f data action svc).2
               = (pushed f ++ [target])%list)).
Proof.
  unfold handleFormSubmit, submit_catch, submit_fail.
  destruct (operation f) eqn:Hop;
    try (destruct action as [result|e]; [destruct (success result)|]);
    simpl; name_results;
    try match goal with |- context [match ?x with Some _ => _ | None => _ end] =>
      destruct x end;
    simpl;
    try match goal with |- context [if ?c then _ else _] => destruct c end;
    simpl; rewrite ?Hop;
    (split; [reflexivity|split; [reflexivity|split; [reflexivity|]]]);
    first [left; reflexivity | right; eauto].
Qed.

(** X13. An exception of the awaited call does not escape the
    submission: it is classified and shown, nothing is pushed to the
    router, the URL stays, and the form stops loading. *)
Theorem submit_shows_exceptions (h : heap) (f : Form) (data : gmap string jsval)
    (e : jsval) :
  is_Some (error (handleFormSubmit handleError h f data
                    (UseAuth.Rejected e) (UseAuth.Rejected e)).2)
  /\ pushed (handleFormSubmit handleError h f data
               (UseAuth.Rejected e) (UseAuth.Rejected e)).2 = pushed f
  /\ location (handleFormSubmit handleError h f data
                 (UseAuth.Rejected e) (UseAuth.Rejected e)).2 = location f
  /\ isLoading (handleFormSubmit handleError h f data
                  (UseAuth.Rejected e) (UseAuth.Rejected e)).2 = false.
Proof.
  unfold handleFormSubmit, submit_catch, UseAuth.updatePassword.
  destruct (operation f); simpl;
    match goal with
    | |- context [handleError ?a ?b ?c] => destruct (handleError a b c)
    end; simpl; eauto.
Qed.

(** X14. A successful request for a reset email shows the "check your
    email" panel and navigates nowhere: no error, nothing pushed, the URL
    and the operation as before.  The button of the panel then leads back
    to [LOGIN] with its default values and the panel gone. *)
Theorem forgot_password_success (h : heap) (f : Form) (data : gmap string jsval)
    (result : ActionResult) (svc : UseAuth.outcome jsval) :
  operation f = FORGOT_PASSWORD ->
  success result = true ->
  (handleFormSubmit handleError h f data (UseAuth.Resolved result) svc).1 = h
  /\ emailSent (handleFormSubmit handleError h f data
                  (UseAuth.Resolved result) svc).2 = true
  /\ error (handleFormSubmit handleError h f data
              (UseAuth.Resolved result) svc).2 = None
  /\ pushed (handleFormSubmit handleError h f data
               (UseAuth.Resolved result) svc).2 = pushed f
  /\ location (handleFormSubmit handleError h f data
                 (UseAuth.Resolved result) svc).2 = location f
  /\ operation (handleFormSubmit handleError h f data
                  (UseAuth.Resolved result) svc).2 = FORGOT_PASSWORD
  /\ operationEffect (backToLogin
       (handleFormSubmit handleError h f data (UseAuth.Resolved result) svc).2)
     = {| operation := LOGIN; error := None; isLoading := false;
          isRedirecting := false; emailSent := false;
          values := authFormDefaults LOGIN;
          auth := UseAuth.clearError (auth f);
          location := location (handleOperationChange LOGIN f);
          pushed := pushed f |}.
Proof.
  intros Hop Hs. unfold handleFormSubmit. rewrite Hop, Hs. simpl.
  rewrite Hop. repeat (split; [reflexivity|]).
  unfold operationEffect, backToLogin. simpl.
  rewrite URLSearchParamsFacts.get_set_eq. simpl. rewrite Hop. reflexivity.
Qed.

End Submit.

Lemma forgot_password_success_witness :
  operation (Samples.freshForm FORGOT_PASSWORD) = FORGOT_PASSWORD
  /\ success {| success := true; aerror := VUndefined |} = true
  /\ emailSent (handleFormSubmit ErrorLib.handleClientError ∅
                  (Samples.freshForm FORGOT_PASSWORD)
                  (literal [("email", VStr "user@test.com")])
                  (UseAuth.Resolved {| success := true; aerror := VUndefined |})
                  (UseAuth.Resolved VNull)).2 = true
  /\ pushed (handleFormSubmit ErrorLib.handleClientError ∅
               (Samples.freshForm FORGOT_PASSWORD)
               (literal [("email", VStr "user@test.com")])
               (UseAuth.Resolved {| success := true; aerror := VUndefined |})
               (UseAuth.Resolved VNull)).2 = [].
Proof.
  assert (operation (Samples.freshForm FORGOT_PASSWORD) = FORGOT_PASSWORD)
    as Hop by reflexivity.
  assert (success {| success := true; aerror := VUndefined |} = true)
    as Hs by reflexivity.
  split; [exact Hop|]. split; [exact Hs|].
  destruct (forgot_password_success ErrorLib.handleClientError ∅
              (Samples.freshForm FORGOT_PASSWORD)
              (literal [("email", VStr "user@test.com")])
              {| success := true; aerror := VUndefined |}
              (UseAuth.Resolved VNull) Hop Hs) as (_ & H2 & _ & H4 & _).
  split; [exact H2|exact H4].
Defined.

End AuthFormMoreFacts.

(** ** The rest of the form component *)

Module AuthFormPageFacts.

Import AuthForm AuthFormPage JSString.

Lemma find_first (p : string -> bool) (before after : list string) (x : string) :
  Forall (fun r => p r = false) before -> p x = true ->
  List.find p (before ++ x :: after) = Some x.
Proof.
  intros Hb Hx. induction Hb as [|r before Hr _ IH]; simpl.
  - by rewrite Hx.
  - by rewrite Hr.
Qed.

Lemma prefix_empty (s : string) : String.prefix "" s = true.
Proof. by destruct s. Qed.

Lemma mentions_app (c : ascii) (s t : string) :
  mentions c (s ++ t) = mentions c s || mentions c t.
Proof.
  induction s as [|a s IH]; [reflexivity|].
  change (String a s ++ t) with (String a (s ++ t)). cbn [mentions].
  by rewrite IH, orb_assoc.
Qed.

Lemma signOutReason_rows (rows : list string) :
  Forall (fun r => mentions ";" r = false) rows ->
  signOutReason (String.concat "; " rows)
  = List.find (String.prefix "signout-reason=") rows
    ≫= fun row => split "=" row !! 1%nat.
Proof.
  intros H. unfold signOutReason.
  rewrite (JSStringFacts.split_concat rows H). by destruct rows.
Qed.

(** X15. The reader of the [signout-reason] cookie, on a cookie string
    whose cookies are joined by [; ]: it finds the first cookie whose
    name starts the row [signout-reason=] and gives what follows up to
    the next equals sign; without such a cookie it gives nothing, also on
    the empty string. *)
Theorem sign_out_reason_of_jar (rows : list string) :
  Forall (fun r => mentions ";" r = false) rows ->
  signOutReason (String.concat "; " rows)
  = List.find (String.prefix "signout-reason=") rows
    ≫= fun row => split "=" row !! 1%nat.
Proof.
  intros H. unfold signOutReason.
  rewrite (JSStringFacts.split_concat rows H). by destruct rows.
Qed.

Lemma sign_out_reason_of_jar_witness :
  Forall (fun r => mentions ";" r = false)
    ["theme=dark"; "signout-reason=user-not-found=1"; "signout-reason=other"]
  /\ signOutReason "theme=dark; signout-reason=user-not-found=1; signout-reason=other"
     = Some "user-not-found".
Proof.
  assert (Forall (fun r => mentions ";" r = false)
            ["theme=dark"; "signout-reason=user-not-found=1";
             "signout-reason=other"]) as H
    by (repeat constructor).
  split; [exact H|].
  exact (sign_out_reason_of_jar
           ["theme=dark"; "signout-reason=user-not-found=1";
            "signout-reason=other"] H).
Defined.

Section Page.

Variable handleError : heap -> jsval -> list (string * jsval) -> jsval * heap.

(** X16. When the first [signout-reason] cookie of the jar has the value
    [user-not-found], the effect shows the classified "User not found"
    error and assigns the cookie that removes it; with any other value it
    leaves the form and the cookies alone. *)
Theorem sign_out_reason_shown (h : heap) (f : Form)
    (before after : list string) (v : string) :
  Forall (fun r => mentions ";" r = false) (before ++ after) ->
  Forall (fun r => String.prefix "signout-reason=" r = false) before ->
  mentions ";" v = false ->
  mentions "=" v = false ->
  signOutReason (String.concat "; " (before ++ ("signout-reason=" ++ v) :: after))
    = Some v
  /\ checkSignOutReason handleError h f
       (String.concat "; " (before ++ ("signout-reason=" ++ v) :: after))
     = (if String.eqb v "user-not-found"
        then ((userNotFoundError handleError h v).2,
              setError (Some (userNotFoundError handleError h v).1) f,
              [removeSignOutReason])
        else (h, f, [])).
Proof.
  intros Hrows Hbefore Hsemi Heq.
  assert (signOutReason
            (String.concat "; " (before ++ ("signout-reason=" ++ v) :: after))
          = Some v) as Hparse.
  { rewrite signOutReason_rows.
    - rewrite (find_first _ before after _ Hbefore)
        by (simpl; apply prefix_empty).
      change (split "=" ("signout-reason" ++ String "=" v) !! 1%nat = Some v).
      rewrite (JSStringFacts.split_at "=" "signout-reason" v) by reflexivity.
      by rewrite (JSStringFacts.split_absent "=" "" v Heq).
    - apply Forall_app in Hrows as [Hb Ha].
      apply Forall_app. split; [exact Hb|].
      constructor; [|exact Ha]. exact Hsemi. }
  split; [exact Hparse|].
  unfold checkSignOutReason. rewrite Hparse.
  destruct (String.eqb v "user-not-found"); [|reflexivity].
  by destruct (userNotFoundError handleError h v).
Qed.

End Page.

Lemma sign_out_reason_shown_witness :
  Forall (fun r => mentions ";" r = false) (["theme=dark"] ++ ["lang=en"])
  /\ Forall (fun r => String.prefix "signout-reason=" r = false) ["theme=dark"]
  /\ mentions ";" "user-not-found" = false
  /\ mentions "=" "user-not-found" = false
  /\ signOutReason "theme=dark; signout-reason=user-not-found; lang=en"
     = Some "user-not-found"
  /\ checkSignOutReason ErrorLib.handleClientError ∅
       (Samples.freshForm LOGIN)
       "theme=dark; signout-reason=user-not-found; lang=en"
     = ((userNotFoundError ErrorLib.handleClientError ∅ "user-not-found").2,
        setError
          (Some (userNotFoundError ErrorLib.handleClientError ∅
                   "user-not-found").1)
          (Samples.freshForm LOGIN),
        [removeSignOutReason]).
Proof.
  assert (Forall (fun r => mentions ";" r = false) (["theme=dark"] ++ ["lang=en"]))
    as H1 by (repeat constructor).
  assert (Forall (fun r => String.prefix "signout-reason=" r = false)
            ["theme=dark"]) as H2 by (repeat constructor).
  assert (mentions ";" "user-not-found" = false) as H3 by reflexivity.
  assert (mentions "=" "user-not-found" = false) as H4 by reflexivity.
  split; [exact H1|]. split; [exact H2|]. split; [exact H3|]. split; [exact H4|].
  exact (sign_out_reason_shown ErrorLib.handleClientError ∅
           (Samples.freshForm LOGIN) ["theme=dark"] ["lang=en"]
           "user-not-found" H1 H2 H3 H4).
Defined.

End AuthFormPageFacts.

(** ** The fields, the defaults and the helpers *)

Module AuthFormFieldsFacts.

Import AuthForm AuthFormFields AuthHelpers.

(** X17. For every operation, the fields that the form renders register
    exactly the names that have a default value, each once, and the
    values that the form is reset to on a change of operation are the
    values that the form hook starts with. *)
Theorem fields_match_defaults (o : AuthOperationsEnum) :
  list_to_set (names o) = dom (authFormDefaults o)
  /\ NoDup (names o)
  /\ UseAuthForm.defaultValuesMap o = authFormDefaults o.
Proof.
  destruct o; (split; [|split; [|reflexivity]]);
    apply (bool_decide_unpack _); vm_compute; exact I.
Qed.

(** X18. The helpers tell of an operation what its form shows: the email,
    name and terms helpers hold exactly when the field is rendered, the
    password helper exactly when a password field is, the current and
    confirm flags of the password requirements exactly when those fields
    are, the label is the one of the field where the password is typed,
    and the social helper agrees with the form on the provider buttons. *)
Theorem helpers_match_fields (o : AuthOperationsEnum) :
  operationRequiresEmail o = bool_decide ("email" ∈ names o)
  /\ operationRequiresName o = bool_decide ("name" ∈ names o)
  /\ operationRequiresTerms o = bool_decide ("acceptTerms" ∈ names o)
  /\ operationRequiresPassword o = existsb isPasswordField (AuthFormFields o)
  /\ showCurrentPassword (getPasswordRequirements o)
     = bool_decide ("currentPassword" ∈ names o)
  /\ showConfirmPassword (getPasswordRequirements o)
     = bool_decide ("confirmPassword" ∈ names o)
  /\ passwordLabel (getPasswordRequirements o)
     = default "Password" (labelOf "password" o ∪ labelOf "newPassword" o)
  /\ operationShowsSocialLogin o = AuthFormPage.showsLoginButtons o.
Proof.
  destruct o; repeat split; vm_compute; reflexivity.
Qed.

End AuthFormFieldsFacts.

(** ** The life of the confirmation view *)

Module ConfirmEmailViewRunsFacts.

Import ConfirmEmailView ConfirmEmailViewRuns.

Lemma verified_keeps (r : UseAuth.outcome (option string)) (v : View) :
  verifyOtp (verified r v) = verifyOtp v /\ deps (verified r v) = deps v.
Proof. by destruct r as [[m|]|e]. Qed.

(** X19. A link that lacks [token_hash] or [type], or has it empty, never
    reaches the identity provider: however often the view is rendered
    with such links, no exchange is added. *)
Theorem invalid_link_no_exchange (es : list Event) (v : View) :
  Forall invalid es ->
  verifyOtp (run es v) = verifyOtp v.
Proof.
  intros H. revert v. unfold run.
  induction H as [|e es He _ IH]; intros v; [reflexivity|].
  simpl. rewrite IH. destruct e as [sp|r]; simpl in *.
  - unfold render. destruct (decide _); [reflexivity|].
    rewrite ConfirmEmailViewFacts.effect_calls. simpl. by rewrite He.
  - apply verified_keeps.
Qed.

(** X20. A view mounted on a link with both parameters exchanges the
    token once: after the first render, any number of renders with the
    same [searchParams] object and of settled exchanges leaves it at that
    one exchange. *)
Theorem one_exchange_per_object (sp : option SearchParams) (es : list Event) :
  hasInvalidToken sp = false ->
  Forall (sameObject sp) es ->
  verifyOtp (run es (render sp initial))
  = [(default "" (param sp "token_hash"), default "" (param sp "type"))].
Proof.
  intros Hv H.
  assert (forall v, deps v = Some (ident <$> sp) ->
            verifyOtp (run es v) = verifyOtp v) as Hrun.
  { unfold run. induction H as [|e es He _ IH]; intros v Hd; [reflexivity|].
    simpl. destruct e as [sp'|r]; simpl in *.
    - subst sp'. unfold render. rewrite decide_True by exact Hd.
      by apply IH.
    - destruct (verified_keeps r v) as [Hc Hd'].
      rewrite IH by congruence. exact Hc. }
  rewrite Hrun by apply ConfirmEmailViewFacts.render_deps.
  unfold render, initial. simpl.
  rewrite ConfirmEmailViewFacts.effect_calls. simpl. by rewrite Hv.
Qed.

Lemma invalid_link_no_exchange_witness :
  Forall invalid
    [Render None; Render (Some Scenarios.brokenLink);
     Verified (UseAuth.Resolved None); Render (Some Scenarios.brokenLink)]
  /\ verifyOtp
       (run [Render None; Render (Some Scenarios.brokenLink);
             Verified (UseAuth.Resolved None); Render (Some Scenarios.brokenLink)]
            initial) = [].
Proof.
  assert (Forall invalid
            [Render None; Render (Some Scenarios.brokenLink);
             Verified (UseAuth.Resolved None);
             Render (Some Scenarios.brokenLink)]) as H.
  { repeat constructor. }
  split; [exact H|].
  exact (invalid_link_no_exchange _ initial H).
Defined.

Lemma one_exchange_per_object_witness :
  hasInvalidToken (Some Samples.link) = false
  /\ Forall (sameObject (Some Samples.link))
       [Render (Some Samples.link); Verified (UseAuth.Resolved None);
        Render (Some Samples.link)]
  /\ verifyOtp
       (run [Render (Some Samples.link); Verified (UseAuth.Resolved None);
             Render (Some Samples.link)]
            (render (Some Samples.link) initial))
     = [("abc", "email")].
Proof.
  assert (hasInvalidToken (Some Samples.link) = false) as Hv by reflexivity.
  assert (Forall (sameObject (Some Samples.link))
            [Render (Some Samples.link); Verified (UseAuth.Resolved None);
             Render (Some Samples.link)]) as H.
  { repeat constructor. }
  split; [exact Hv|]. split; [exact H|].
  exact (one_exchange_per_object (Some Samples.link) _ Hv H).
Defined.

End ConfirmEmailViewRunsFacts.

(** ** More on the verification route *)

Module ConfirmRouteMoreFacts.

Import ConfirmRoute.

(** X21. A link that lacks [token_hash] or [type], or has it empty, is
    never exchanged.  The route parses its target first, [next] or
    [/profile] when [next] is missing or empty: when that parses, the
    response is the redirect, with the security headers, to
    [/auth/auth-code-error] on the origin of the request, with the code
    [invalid_verification_link] as its only parameter; when it does not,
    the handler throws what the parser throws. *)
Theorem incomplete_link_redirect
    (newURL : string -> string -> UseAuth.outcome URL)
    (applySecurityHeaders : Response -> Response) (request : URL)
    (next : string) (createClient : UseAuth.outcome unit)
    (verifyOtp : UseAuth.outcome (option AuthError)) :
  ConfirmEmailView.present (URLSearchParams.get "token_hash" (searchParams request))
  && ConfirmEmailView.present (URLSearchParams.get "type" (searchParams request))
  = false ->
  (URLSearchParams.get "next" (searchParams request) = Some next /\ next <> "")
  \/ ((URLSearchParams.get "next" (searchParams request) = None
       \/ URLSearchParams.get "next" (searchParams request) = Some "")
      /\ next = "/profile") ->
  exchange (GET newURL applySecurityHeaders request createClient verifyOtp) = None
  /\ response (GET newURL applySecurityHeaders request createClient verifyOtp)
     = match newURL next (origin request) with
       | UseAuth.Resolved _ =>
           UseAuth.Resolved (applySecurityHeaders (NextResponse_redirect
             {| origin := origin request;
                pathname := "/auth/auth-code-error";
                searchParams := [("code", "invalid_verification_link")];
                hash := "" |}))
       | UseAuth.Rejected e => UseAuth.Rejected e
       end.
Proof.
  intros H Hnext. apply ConfirmRouteFacts.orElse_next in Hnext.
  destruct (newURL next (origin request)) as [u|e] eqn:Hu;
    rewrite <- Hnext in Hu.
  - by rewrite (ConfirmRouteFacts.missing_parameters_redirect _ _ _ u _ _ H Hu).
  - by rewrite (ConfirmRouteFacts.unparsable_target_thrown _ _ _ e _ _ Hu).
Qed.

Lemma incomplete_link_redirect_witness :
  ConfirmEmailView.present
    (URLSearchParams.get "token_hash" (searchParams Scenarios.incompleteRequest))
  && ConfirmEmailView.present
       (URLSearchParams.get "type" (searchParams Scenarios.incompleteRequest))
  = false
  /\ URLSearchParams.get "next" (searchParams Scenarios.incompleteRequest)
     = Some "/settings"
  /\ exchange (GET parseURL Samples.withSecurityHeaders
                 Scenarios.incompleteRequest (UseAuth.Resolved tt)
                 (UseAuth.Resolved None)) = None
  /\ response (GET parseURL Samples.withSecurityHeaders
                 Scenarios.incompleteRequest (UseAuth.Resolved tt)
                 (UseAuth.Resolved None))
     = UseAuth.Resolved (Samples.withSecurityHeaders (NextResponse_redirect
         {| origin := "https://app.test";
            pathname := "/auth/auth-code-error";
            searchParams := [("code", "invalid_verification_link")];
            hash := "" |})).
Proof.
  assert (ConfirmEmailView.present
            (URLSearchParams.get "token_hash"
               (searchParams Scenarios.incompleteRequest))
          && ConfirmEmailView.present
               (URLSearchParams.get "type"
                  (searchParams Scenarios.incompleteRequest))
          = false) as H by reflexivity.
  assert (URLSearchParams.get "next" (searchParams Scenarios.incompleteRequest)
          = Some "/settings") as Hn by reflexivity.
  assert ("/settings" <> "") as Hne by discriminate.
  split; [exact H|]. split; [exact Hn|].
  exact (incomplete_link_redirect parseURL Samples.withSecurityHeaders
           Scenarios.incompleteRequest "/settings" (UseAuth.Resolved tt)
           (UseAuth.Resolved None) H (or_introl (conj Hn Hne))).
Defined.

(** X22. The successful redirect keeps what the parsed target says apart
    from the three parameters the route owns: when [next], or [/profile]
    when [next] is missing or empty, parses against the origin of the
    request and the client of the identity provider is created, the
    target of the redirect has the origin, the path and the fragment of
    the parsed URL, and every parameter other than [token_hash], [type]
    and [verified] has the value it has there. *)
Theorem success_redirect_keeps_target
    (newURL : string -> string -> UseAuth.outcome URL)
    (applySecurityHeaders : Response -> Response) (request : URL)
    (next : string) (u : URL) (k : string) :
  ConfirmEmailView.present (URLSearchParams.get "token_hash" (searchParams request))
  && ConfirmEmailView.present (URLSearchParams.get "type" (searchParams request))
  = true ->
  (URLSearchParams.get "next" (searchParams request) = Some next /\ next <> "")
  \/ ((URLSearchParams.get "next" (searchParams request) = None
       \/ URLSearchParams.get "next" (searchParams request) = Some "")
      /\ next = "/profile") ->
  newURL next (origin request) = UseAuth.Resolved u ->
  k <> "token_hash" -> k <> "type" -> k <> "verified" ->
  exists target,
    response (GET newURL applySecurityHeaders request (UseAuth.Resolved tt)
                (UseAuth.Resolved None))
      = UseAuth.Resolved (applySecurityHeaders (NextResponse_redirect target))
    /\ origin target = origin u
    /\ pathname target = pathname u
    /\ hash target = hash u
    /\ URLSearchParams.get k (searchParams target)
       = URLSearchParams.get k (searchParams u).
Proof.
  intros Hp Hnext Hu Ht Hty Hv. apply ConfirmRouteFacts.orElse_next in Hnext.
  unfold GET. rewrite Hnext, Hu, Hp. eexists.
  split; [reflexivity|]. simpl.
  split; [reflexivity|]. split; [reflexivity|]. split; [reflexivity|].
  rewrite URLSearchParamsFacts.get_set_ne by exact Hv.
  rewrite URLSearchParamsFacts.get_delete_ne by exact Hty.
  by rewrite URLSearchParamsFacts.get_delete_ne by exact Ht.
Qed.

Lemma success_redirect_keeps_target_witness :
  ConfirmEmailView.present
    (URLSearchParams.get "token_hash" (searchParams Samples.confirmRequest))
  && ConfirmEmailView.present
       (URLSearchParams.get "type" (searchParams Samples.confirmRequest))
  = true
  /\ URLSearchParams.get "next" (searchParams Samples.confirmRequest)
     = Some "/settings?type=recovery&tab=security#password"
  /\ parseURL "/settings?type=recovery&tab=security#password"
       (origin Samples.confirmRequest)
     = UseAuth.Resolved
         (pathAbsoluteURL "/settings?type=recovery&tab=security#password"
            (origin Samples.confirmRequest))
  /\ exists target,
    response (GET parseURL Samples.withSecurityHeaders
                Samples.confirmRequest (UseAuth.Resolved tt)
                (UseAuth.Resolved None))
      = UseAuth.Resolved (Samples.withSecurityHeaders (NextResponse_redirect target))
    /\ origin target
       = origin (pathAbsoluteURL "/settings?type=recovery&tab=security#password"
                   (origin Samples.confirmRequest))
    /\ pathname target
       = pathname (pathAbsoluteURL "/settings?type=recovery&tab=security#password"
                     (origin Samples.confirmRequest))
    /\ hash target
       = hash (pathAbsoluteURL "/settings?type=recovery&tab=security#password"
                 (origin Samples.confirmRequest))
    /\ URLSearchParams.get "tab" (searchParams target)
       = URLSearchParams.get "tab"
           (searchParams
              (pathAbsoluteURL "/settings?type=recovery&tab=security#password"
                 (origin Samples.confirmRequest))).
Proof.
  assert (ConfirmEmailView.present
            (URLSearchParams.get "token_hash" (searchParams Samples.confirmRequest))
          && ConfirmEmailView.present
               (URLSearchParams.get "type" (searchParams Samples.confirmRequest))
          = true) as H by reflexivity.
  assert (URLSearchParams.get "next" (searchParams Samples.confirmRequest)
          = Some "/settings?type=recovery&tab=security#password") as Hn
    by reflexivity.
  assert ("/settings?type=recovery&tab=security#password" <> "") as Hne
    by discriminate.
  assert (parseURL "/settings?type=recovery&tab=security#password"
            (origin Samples.confirmRequest)
          = UseAuth.Resolved
              (pathAbsoluteURL "/settings?type=recovery&tab=security#password"
                 (origin Samples.confirmRequest))) as Hu by reflexivity.
  split; [exact H|]. split; [exact Hn|]. split; [exact Hu|].
  apply (success_redirect_keeps_target parseURL Samples.withSecurityHeaders
           Samples.confirmRequest
           "/settings?type=recovery&tab=security#password" _ "tab" H
           (or_introl (conj Hn Hne)) Hu);
    discriminate.
Defined.

End ConfirmRouteMoreFacts.

(** ** The security configuration *)

Module SecurityConfigFacts.

Import SecurityConfig.

Lemma prefix_app_l (sub s t : string) :
  String.prefix sub s = true -> String.prefix sub (s ++ t) = true.
Proof.
  revert s. induction sub as [|c sub IH]; intros s H.
  - by destruct (s ++ t).
  - destruct s as [|a s]; [discriminate|].
    change (String a s ++ t) with (String a (s ++ t)).
    simpl in *. destruct (ascii_dec c a); [by apply IH|discriminate].
Qed.

Lemma prefix_refl (s : string) : String.prefix s s = true.
Proof.
  induction s as [|a s IH]; [reflexivity|].
  simpl. by destruct (ascii_dec a a).
Qed.

Lemma includes_prefix (s sub : string) :
  String.prefix sub s = true -> includes s sub = true.
Proof. intros H. destruct s; simpl in *; by rewrite H. Qed.

(** The string is found at the start of what it is put before. *)
Lemma includes_start (sub t : string) : includes (sub ++ t) sub = true.
Proof. apply includes_prefix, prefix_app_l, prefix_refl. Qed.

Lemma includes_app_l (s t sub : string) :
  includes s sub = true -> includes (s ++ t) sub = true.
Proof.
  induction s as [|a s IH]; intros H.
  - simpl in H. rewrite orb_false_r in H.
    apply includes_prefix, prefix_app_l, H.
  - change (String a s ++ t) with (String a (s ++ t)).
    simpl in H. apply orb_true_iff in H as [H|H].
    + apply includes_prefix.
      by apply (prefix_app_l sub (String a s) t).
    + cbn [includes]. rewrite (IH H). apply orb_true_r.
Qed.

Lemma includes_app_r (s t sub : string) :
  includes t sub = true -> includes (s ++ t) sub = true.
Proof.
  intros H. induction s as [|a s IH]; [exact H|].
  change (String a s ++ t) with (String a (s ++ t)).
  cbn [includes]. rewrite IH. apply orb_true_r.
Qed.

(** Finds the place of a string in a chain of appended strings. *)
Ltac find_included :=
  first [ apply includes_start
        | apply includes_app_l; find_included
        | apply includes_app_r; find_included ].

Lemma app_quote_inj (n m : string) : n ++ "'" = m ++ "'" -> n = m.
Proof.
  revert m. induction n as [|a n IH]; intros [|b m] H; simpl in H.
  - reflexivity.
  - destruct m; discriminate.
  - destruct n; discriminate.
  - injection H as -> H. f_equal. by apply IH.
Qed.

Section Env.

Variable isProduction isDevelopment : bool.

(** X23. The configuration is valid exactly when the three variables are
    set, the URL of the identity provider starts with [https://], and, in
    production, the error reporting is configured; the list of errors has
    at most five entries and never blames the URL both for missing and
    for not using HTTPS. *)
Theorem validate_security_config_valid (env : gmap string string) :
  (validateSecurityConfig isProduction env).1
  = envSet env "NEXT_PUBLIC_SUPABASE_URL"
    && String.prefix "https://" (default "" (env !! "NEXT_PUBLIC_SUPABASE_URL"))
    && envSet env "NEXT_PUBLIC_SUPABASE_ANON_KEY"
    && envSet env "NODE_ENV"
    && (negb isProduction || envSet env "SENTRY_DSN")
  /\ List.length (validateSecurityConfig isProduction env).2 <= 5
  /\ ~ (In "Missing required environment variable: NEXT_PUBLIC_SUPABASE_URL"
          (validateSecurityConfig isProduction env).2
        /\ In "NEXT_PUBLIC_SUPABASE_URL must use HTTPS"
             (validateSecurityConfig isProduction env).2).
Proof.
  unfold validateSecurityConfig. cbn [fst snd flat_map].
  destruct (envSet env "NEXT_PUBLIC_SUPABASE_URL"),
    (String.prefix "https://" (default "" (env !! "NEXT_PUBLIC_SUPABASE_URL"))),
    (envSet env "NEXT_PUBLIC_SUPABASE_ANON_KEY"), (envSet env "NODE_ENV"),
    isProduction, (envSet env "SENTRY_DSN");
    (split; [reflexivity|split; [simpl; lia|]]);
    intros [H1 H2]; simpl in H1, H2; intuition discriminate.
Qed.

(** X24. With a nonce, the placeholder is gone from the sources of every
    directive, the script sources carry the nonce in its place, and the
    header names it. *)
Theorem nonce_put_in (n : string) :
  n <> "" ->
  n <> "{NONCE}" ->
  sourcesOf isProduction isDevelopment (Some n) "scriptSrc"
  = (["'self'"; ("'nonce-" ++ n ++ "'")%string; "https://*.supabase.co"]
     ++ (if isDevelopment then ["'unsafe-eval'"] else []))%list
  /\ Forall (fun e => match e.2 with
                      | Sources l =>
                          Forall (fun s => s <> noncePlaceholder)
                                 (withNonce (Some n) <$> l)
                      | Flag _ => True
                      end)
            (CSP_CONFIG isProduction isDevelopment)
  /\ includes (generateCSPHeader isProduction isDevelopment (Some n))
              ("'nonce-" ++ n ++ "'") = true.
Proof.
  intros Hn Hp.
  assert (String.eqb n "" = false) as He by by apply String.eqb_neq.
  assert (withNonce (Some n) noncePlaceholder = ("'nonce-" ++ n ++ "'")%string)
    as Hw by (unfold withNonce; by rewrite He).
  assert (forall s, String.eqb s noncePlaceholder = false ->
                    withNonce (Some n) s = s) as Hk.
  { intros s Hs. unfold withNonce. by rewrite Hs, andb_false_r. }
  assert (("'nonce-" ++ n ++ "'")%string <> noncePlaceholder) as Hne.
  { intros H. unfold noncePlaceholder in H.
    change ("'nonce-{NONCE}'") with ("'nonce-" ++ "{NONCE}" ++ "'")%string in H.
    simpl in H. injection H as H. by apply app_quote_inj in H. }
  split; [|split].
  - unfold sourcesOf, CSP_CONFIG. destruct isProduction, isDevelopment;
      cbn [List.find fst snd String.eqb Ascii.eqb Bool.eqb app fmap list_fmap];
      fold noncePlaceholder; rewrite Hw, !Hk by reflexivity; reflexivity.
  - unfold CSP_CONFIG. destruct isProduction, isDevelopment;
      cbn [app]; repeat (constructor; cbn [snd fmap list_fmap]);
      fold noncePlaceholder; rewrite ?Hw, ?Hk by reflexivity;
      try exact I; try exact Hne; discriminate.
  - unfold generateCSPHeader, CSP_CONFIG. destruct isProduction, isDevelopment;
      cbn [app fmap list_fmap directive String.concat];
      fold noncePlaceholder; rewrite Hw; find_included.
Qed.

(** X25. Without a nonce, undefined or empty, the placeholder stays: it
    is a source of the script directive and part of the header. *)
Theorem missing_nonce_keeps_placeholder (nonce : option string) :
  nonce = None \/ nonce = Some "" ->
  sourcesOf isProduction isDevelopment nonce "scriptSrc"
  = (["'self'"; noncePlaceholder; "https://*.supabase.co"]
     ++ (if isDevelopment then ["'unsafe-eval'"] else []))%list
  /\ includes (generateCSPHeader isProduction isDevelopment nonce)
              noncePlaceholder = true.
Proof.
  intros [->| ->]; destruct isProduction, isDevelopment;
    split; vm_compute; reflexivity.
Qed.

(** X26. The environment shows in the policy as follows: the policy has
    eleven directives and in production a twelfth,
    [upgrade-insecure-requests]; ['unsafe-eval'] is a script source in
    development only. *)
Theorem policy_by_environment (nonce : option string) :
  List.length (directive nonce <$> CSP_CONFIG isProduction isDevelopment)
  = (if isProduction then 12 else 11)
  /\ ("upgrade-insecure-requests"
        ∈ (directive nonce <$> CSP_CONFIG isProduction isDevelopment)
      <-> isProduction = true)
  /\ ("'unsafe-eval'" ∈ sourcesOf isProduction isDevelopment nonce "scriptSrc"
      <-> isDevelopment = true).
Proof.
  split; [by destruct isProduction|].
  split.
  - unfold CSP_CONFIG. destruct isProduction, isDevelopment;
      cbn [app fmap list_fmap]; rewrite !elem_of_cons, elem_of_nil;
      (split; [|try discriminate; intros _; repeat first [left; reflexivity | right]]);
      try (intros H; try reflexivity;
           repeat match goal with
           | H : _ \/ _ |- _ => destruct H as [H|H]
           end; try contradiction;
           destruct nonce as [n|]; cbv in H; discriminate).
  - assert (forall s, String.eqb s noncePlaceholder = false ->
                      withNonce nonce s = s) as Hk.
    { intros s Hs. unfold withNonce. destruct nonce as [n|]; [|reflexivity].
      by rewrite Hs, andb_false_r. }
    assert (withNonce nonce noncePlaceholder <> "'unsafe-eval'") as Hp.
    { unfold withNonce. destruct nonce as [n|]; [|discriminate].
      destruct (String.eqb n ""); cbv; discriminate. }
    unfold sourcesOf, CSP_CONFIG. destruct isProduction, isDevelopment;
      cbn [List.find fst snd String.eqb Ascii.eqb Bool.eqb app fmap list_fmap];
      fold noncePlaceholder;
      rewrite ?(Hk "'self'"), ?(Hk "https://*.supabase.co"),
        ?(Hk "'unsafe-eval'") by reflexivity;
      rewrite !elem_of_cons, elem_of_nil;
      intuition (try discriminate; try congruence).
Qed.

End Env.

Lemma nonce_put_in_witness :
  "r4nd0m" <> ""
  /\ "r4nd0m" <> "{NONCE}"
  /\ sourcesOf true false (Some "r4nd0m") "scriptSrc"
     = ["'self'"; "'nonce-r4nd0m'"; "https://*.supabase.co"]
  /\ includes (generateCSPHeader true false (Some "r4nd0m")) "'nonce-r4nd0m'"
     = true.
Proof.
  assert ("r4nd0m" <> "") as H1 by discriminate.
  assert ("r4nd0m" <> "{NONCE}") as H2 by discriminate.
  split; [exact H1|]. split; [exact H2|].
  destruct (nonce_put_in true false "r4nd0m" H1 H2) as (Hs & _ & Hh).
  split; [exact Hs|exact Hh].
Defined.

Lemma missing_nonce_keeps_placeholder_witness :
  (@None string = None \/ @None string = Some "")
  /\ sourcesOf true false None "scriptSrc"
     = ["'self'"; noncePlaceholder; "https://*.supabase.co"]
  /\ includes (generateCSPHeader true false None) noncePlaceholder = true.
Proof.
  assert (@None string = None \/ @None string = Some "") as H
    by (left; reflexivity).
  split; [exact H|].
  exact (missing_nonce_keeps_placeholder true false None H).
Defined.

End SecurityConfigFacts.

(** ** The route guards *)

Module GuardFacts.

Import UseAuth.

Section Store.

Variable isAppError : heap -> jsval -> bool.
Variable handleError : heap -> jsval -> list (string * jsval) -> jsval * heap.

(** X27. A protected route that redirects the unauthenticated shows its
    children only to a store that has stopped loading and holds a session
    with its user, and then pushes nothing to the router. *)
Theorem protected_children_have_session (st : heap * Hook)
    (p : ProtectedRoute.Props) :
  reachable isAppError handleError st ->
  ProtectedRoute.redirectUnauthenticated p = true ->
  ProtectedRoute.render st.2 p = ProtectedRoute.Children ->
  isLoading st.2 = false
  /\ (exists s, session st.2 = Some s /\ authUser st.2 = Some (user s))
  /\ ProtectedRoute.effect st.2 p = [].
Proof.
  intros Hr Hp Hc. apply UseAuthFacts.reachable_coupled in Hr.
  unfold coupled, userOf in Hr.
  unfold ProtectedRoute.render, ProtectedRoute.effect, ProtectedRoute.hasUser in *.
  rewrite Hp in *. rewrite Hr in *.
  destruct (isLoading st.2); simpl in *.
  - destruct (ProtectedRoute.fallback p); discriminate.
  - destruct (session st.2) as [s|]; simpl in *.
    + eauto.
    + destruct (ProtectedRoute.fallback p); discriminate.
Qed.

(** X28. A refresh-token failure of the session check sends a protected
    route to the login path: the store shows no error, and the route
    shows its fallback and pushes [loginPath]. *)
Theorem refresh_failure_redirects_to_login (h : heap) (k : Hook) (ev : Event)
    (e : jsval) (p : ProtectedRoute.Props) :
  isMounted k = true ->
  rejects k ev e ->
  isRefreshTokenError h e = true ->
  ProtectedRoute.redirectUnauthenticated p = true ->
  ProtectedRoute.effect (step isAppError handleError (h, k) ev).2 p
    = [ProtectedRoute.loginPath p]
  /\ ProtectedRoute.render (step isAppError handleError (h, k) ev).2 p
     <> ProtectedRoute.Children
  /\ error (step isAppError handleError (h, k) ev).2 = None.
Proof.
  intros Hm Hrej Hre Hp. unfold rejects in Hrej.
  unfold ProtectedRoute.effect, ProtectedRoute.render, ProtectedRoute.hasUser.
  rewrite Hp.
  destruct (pending k) eqn:Hpd; simpl in Hrej; try contradiction;
    destruct ev; simpl in Hrej; try contradiction;
    destruct r as [?|e']; simpl in Hrej; try contradiction; subst e';
    simpl; rewrite Hpd; simpl;
    unfold checkSession_catch; rewrite Hre, Hm; simpl; rewrite Hm; simpl;
    (split; [reflexivity|split; [|reflexivity]]);
    destruct (ProtectedRoute.fallback p); discriminate.
Qed.

End Store.

(** X29. Without a custom check, [ServerAuth] shows its children exactly
    when its effect grants access, and the effect either grants access or
    denies it and pushes the login path. *)
Theorem default_access (k : Hook) (p : ServerAuth.Props) (hasAccess : option bool) :
  ServerAuth.checkAccess p = None ->
  isLoading k = false ->
  (ServerAuth.render k p hasAccess = ServerAuth.Children
   <-> ServerAuth.verifyAccess k p = [ServerAuth.AccessGranted])
  /\ (ServerAuth.verifyAccess k p = [ServerAuth.AccessGranted]
      \/ ServerAuth.verifyAccess k p
         = [ServerAuth.AccessDenied; ServerAuth.Push (ServerAuth.loginPath p)]).
Proof.
  intros Hc Hl.
  unfold ServerAuth.render, ServerAuth.verifyAccess, ServerAuth.checkAccessControl.
  rewrite Hc, Hl. simpl.
  destruct (ServerAuth.required p), (ServerAuth.isAuthenticated k); simpl;
    (split; [split; (reflexivity || discriminate)|]); auto.
Qed.

(** X30. A custom check that does not resolve to [true], because it
    resolves to [false] or throws, is a denial: the effect pushes the
    login path when authentication is required and calls nothing when it
    is not.  The children of a signed-in user are shown until the result
    is in the state, and the fallback from then on. *)
Theorem custom_denial (k : Hook) (p : ServerAuth.Props)
    (check : bool -> option AuthUser -> option Session -> outcome bool) :
  ServerAuth.checkAccess p = Some check ->
  isLoading k = false ->
  is_Some (authUser k) ->
  check true (authUser k) (session k) <> Resolved true ->
  ServerAuth.verifyAccess k p
    = (if ServerAuth.required p
       then [ServerAuth.AccessDenied; ServerAuth.Push (ServerAuth.loginPath p)]
       else [])
  /\ ServerAuth.render k p None = ServerAuth.Children
  /\ ServerAuth.render k p (ServerAuth.verify k p None) = ServerAuth.Fallback.
Proof.
  intros Hc Hl Hu Hd.
  unfold ServerAuth.render, ServerAuth.verify, ServerAuth.verifyAccess,
    ServerAuth.checkAccessControl, ServerAuth.isAuthenticated.
  rewrite Hc, Hl. rewrite bool_decide_true by exact Hu. simpl.
  destruct (check true (authUser k) (session k)) as [[]|e]; [done| |];
    destruct (ServerAuth.required p); done.
Qed.

Lemma protected_children_have_session_witness :
  reachable ErrorLib.isAppError ErrorLib.handleClientError Samples.signedIn
  /\ ProtectedRoute.redirectUnauthenticated Scenarios.protectedRoute = true
  /\ ProtectedRoute.render Samples.signedIn.2 Scenarios.protectedRoute
     = ProtectedRoute.Children
  /\ isLoading Samples.signedIn.2 = false
  /\ (exists s, session Samples.signedIn.2 = Some s
               /\ authUser Samples.signedIn.2 = Some (user s))
  /\ ProtectedRoute.effect Samples.signedIn.2 Scenarios.protectedRoute = [].
Proof.
  assert (reachable ErrorLib.isAppError ErrorLib.handleClientError
            Samples.signedIn) as Hr.
  { unfold Samples.signedIn. repeat apply reachable_step. apply reachable_initial. }
  assert (ProtectedRoute.redirectUnauthenticated Scenarios.protectedRoute = true)
    as Hp by reflexivity.
  assert (ProtectedRoute.render Samples.signedIn.2 Scenarios.protectedRoute
          = ProtectedRoute.Children) as Hc by (vm_compute; reflexivity).
  split; [exact Hr|]. split; [exact Hp|]. split; [exact Hc|].
  exact (protected_children_have_session ErrorLib.isAppError
           ErrorLib.handleClientError Samples.signedIn
           Scenarios.protectedRoute Hr Hp Hc).
Defined.

Lemma refresh_failure_redirects_to_login_witness :
  isMounted Samples.stale.2 = true
  /\ rejects Samples.stale.2 (EGetSession (Rejected (VRef 1%positive)))
       (VRef 1%positive)
  /\ isRefreshTokenError Samples.stale.1 (VRef 1%positive) = true
  /\ ProtectedRoute.redirectUnauthenticated Scenarios.protectedRoute = true
  /\ ProtectedRoute.effect
       (step ErrorLib.isAppError ErrorLib.handleClientError
          (Samples.stale.1, Samples.stale.2)
          (EGetSession (Rejected (VRef 1%positive)))).2
       Scenarios.protectedRoute = ["/auth"]
  /\ ProtectedRoute.render
       (step ErrorLib.isAppError ErrorLib.handleClientError
          (Samples.stale.1, Samples.stale.2)
          (EGetSession (Rejected (VRef 1%positive)))).2
       Scenarios.protectedRoute <> ProtectedRoute.Children
  /\ error (step ErrorLib.isAppError ErrorLib.handleClientError
              (Samples.stale.1, Samples.stale.2)
              (EGetSession (Rejected (VRef 1%positive)))).2 = None.
Proof.
  assert (isMounted Samples.stale.2 = true) as Hm by (vm_compute; reflexivity).
  assert (rejects Samples.stale.2 (EGetSession (Rejected (VRef 1%positive)))
            (VRef 1%positive)) as Hr by (vm_compute; reflexivity).
  assert (isRefreshTokenError Samples.stale.1 (VRef 1%positive) = true) as He
    by (vm_compute; reflexivity).
  assert (ProtectedRoute.redirectUnauthenticated Scenarios.protectedRoute = true)
    as Hp by reflexivity.
  split; [exact Hm|]. split; [exact Hr|]. split; [exact He|]. split; [exact Hp|].
  exact (refresh_failure_redirects_to_login ErrorLib.isAppError
           ErrorLib.handleClientError Samples.stale.1 Samples.stale.2
           (EGetSession (Rejected (VRef 1%positive))) (VRef 1%positive)
           Scenarios.protectedRoute Hm Hr He Hp).
Defined.

Lemma default_access_witness :
  ServerAuth.checkAccess Scenarios.serverAuth = None
  /\ isLoading Samples.signedIn.2 = false
  /\ (ServerAuth.render Samples.signedIn.2 Scenarios.serverAuth None
      = ServerAuth.Children
      <-> ServerAuth.verifyAccess Samples.signedIn.2 Scenarios.serverAuth
          = [ServerAuth.AccessGranted])
  /\ (ServerAuth.verifyAccess Samples.signedIn.2 Scenarios.serverAuth
      = [ServerAuth.AccessGranted]
      \/ ServerAuth.verifyAccess Samples.signedIn.2 Scenarios.serverAuth
         = [ServerAuth.AccessDenied;
            ServerAuth.Push (ServerAuth.loginPath Scenarios.serverAuth)]).
Proof.
  assert (ServerAuth.checkAccess Scenarios.serverAuth = None) as Hc
    by reflexivity.
  assert (isLoading Samples.signedIn.2 = false) as Hl
    by (vm_compute; reflexivity).
  split; [exact Hc|]. split; [exact Hl|].
  exact (default_access Samples.signedIn.2 Scenarios.serverAuth None Hc Hl).
Defined.

Lemma custom_denial_witness :
  ServerAuth.checkAccess Scenarios.confirmedOnlyAuth
  = Some Scenarios.confirmedOnly
  /\ isLoading Scenarios.bobSignedIn.2 = false
  /\ is_Some (authUser Scenarios.bobSignedIn.2)
  /\ Scenarios.confirmedOnly true (authUser Scenarios.bobSignedIn.2)
       (session Scenarios.bobSignedIn.2) <> Resolved true
  /\ ServerAuth.verifyAccess Scenarios.bobSignedIn.2 Scenarios.confirmedOnlyAuth
     = [ServerAuth.AccessDenied; ServerAuth.Push "/auth"]
  /\ ServerAuth.render Scenarios.bobSignedIn.2 Scenarios.confirmedOnlyAuth None
     = ServerAuth.Children
  /\ ServerAuth.render Scenarios.bobSignedIn.2 Scenarios.confirmedOnlyAuth
       (ServerAuth.verify Scenarios.bobSignedIn.2 Scenarios.confirmedOnlyAuth
          None)
     = ServerAuth.Fallback.
Proof.
  assert (ServerAuth.checkAccess Scenarios.confirmedOnlyAuth
          = Some Scenarios.confirmedOnly) as Hc by reflexivity.
  assert (isLoading Scenarios.bobSignedIn.2 = false) as Hl
    by (vm_compute; reflexivity).
  assert (is_Some (authUser Scenarios.bobSignedIn.2)) as Hu
    by (vm_compute; eexists; reflexivity).
  assert (Scenarios.confirmedOnly true (authUser Scenarios.bobSignedIn.2)
            (session Scenarios.bobSignedIn.2) <> Resolved true) as Hd
    by (vm_compute; discriminate).
  split; [exact Hc|]. split; [exact Hl|]. split; [exact Hu|]. split; [exact Hd|].
  exact (custom_denial Scenarios.bobSignedIn.2 Scenarios.confirmedOnlyAuth
           Scenarios.confirmedOnly Hc Hl Hu Hd).
Defined.

End GuardFacts.
